(** * 3-year premium/discount Z-score of a closed-end fund

    A shallow embedding of [calculate_z_score_3yr] from
    [server/scripts/calculate_zscore_tiingo.py], and the properties of its
    three stages: aligning the fund-price and NAV series, selecting the
    lookback window, and computing the population-normalised score.

    Modelling conventions.
    - A pandas DataFrame is the list of its rows, in row order.
    - A ['date'] cell is the string 'YYYY-MM-DD' of a calendar date, as the
      docstring prescribes; it is embedded as its (year, month, day)
      triple, on which string equality is triple equality and the order of
      [pd.to_datetime] is the lexicographic one.  Cells [pd.to_datetime]
      would reject are outside the input type.
    - Closes are float64 in the source.  The arithmetic is an interface
      ([Float64]) the embedding is parametric in, so every theorem holds for
      whatever the operations compute; IEEE binary64 ([PrimFloat]) is the
      instance the examples run on.  [Series.sum] and [Series.mean] are
      pandas' [nansum] and [nanmean] over numpy's pairwise summation, as
      pandas computes them without bottleneck.
    - Rows of equal date: the order in which [pd.merge] and [sort_values]
      leave them differs between pandas releases and sorting kinds.  The
      function is embedded with the left-major join and a stable sort,
      which is exact when the dates of each series are distinct; what must
      hold for repeated dates as well is proved for every frame these
      lines can leave ([is_aligned_frame]).
    - [pd.np.sqrt] is numpy's square root, through the alias pandas exposed
      up to its 1.x releases; on a release without the alias the line
      raises, and an accepted window has no result at all.
    - The rest of the script is embedded around it: the start-up checks of
      the module, [get_tiingo_prices] over the decoded JSON answer,
      [fetch_and_store_zscore] as a function from the table [etf_static]
      to the table it leaves, and [main].  The network, the clock and the
      database driver are inputs of these functions; what they print is not
      modelled. *)

From Stdlib Require Import ZArith Bool String Ascii List Lia.
From Stdlib Require Import Permutation Sorted.
From Stdlib Require Import Floats.
Import ListNotations.

Set Implicit Arguments.

(** ** Calendar dates *)

Record Date : Type := mkDate { year : Z; month : Z; day : Z }.

Definition date_eqb (a b : Date) : bool :=
  ((year a =? year b) && (month a =? month b) && (day a =? day b))%Z.

(** [a <= b] on timestamps. *)
Definition date_leb (a b : Date) : bool :=
  ((year a <? year b)
   || ((year a =? year b)
       && ((month a <? month b)
           || ((month a =? month b) && (day a <=? day b)))))%Z.

Definition date_ltb (a b : Date) : bool := negb (date_leb b a).

Definition later (a b : Date) : Date := if date_leb a b then b else a.

(** [Series.max()] of a non-empty column whose first cell is [d0]. *)
Definition series_max (d0 : Date) (ds : list Date) : Date :=
  fold_left later ds d0.

Definition is_leap (y : Z) : bool :=
  ((y mod 4 =? 0) && (negb (y mod 100 =? 0) || (y mod 400 =? 0)))%Z.

(** [calendar.monthrange(y, m)[1]]. *)
Definition days_in_month (y m : Z) : Z :=
  (if m =? 2 then (if is_leap y then 29 else 28)
   else if (m =? 4) || (m =? 6) || (m =? 9) || (m =? 11) then 30
   else 31)%Z.

Definition valid_date (d : Date) : bool :=
  ((1 <=? month d) && (month d <=? 12)
   && (1 <=? day d) && (day d <=? days_in_month (year d) (month d)))%Z.

(** [d - pd.DateOffset(years=n)]: dateutil's [relativedelta(years=-n)], which
    keeps the month, moves the year, and clips the day to the length of the
    target month. *)
Definition sub_DateOffset_years (d : Date) (n : Z) : Date :=
  let y := (year d - n)%Z in
  mkDate y (month d) (Z.min (day d) (days_in_month y (month d))).

(** [strftime('%Y-%m-%d')] for years 0..9999. *)
Definition digit (n : Z) : ascii := ascii_of_nat (48 + Z.to_nat (n mod 10)).

Definition pad2 (n : Z) : string :=
  String (digit (n / 10)) (String (digit n) EmptyString).

Definition pad4 (n : Z) : string :=
  String (digit (n / 1000)) (String (digit (n / 100)) (pad2 n)).

Definition strftime_ymd (d : Date) : string :=
  (pad4 (year d) ++ "-" ++ pad2 (month d) ++ "-" ++ pad2 (day d))%string.

(** ** The float64 operations the function uses *)

Class Float64 (num : Type) : Type := {
  fadd : num -> num -> num;
  fsub : num -> num -> num;
  fmul : num -> num -> num;
  fdiv : num -> num -> num;
  fsqrt : num -> num;
  of_int : Z -> num;          (* an int operand promoted to float64 *)
  fgtb : num -> num -> bool;  (* x > y *)
  feqb : num -> num -> bool;  (* x == y *)
  fisnan : num -> bool;       (* pandas' isna on a float64 cell *)
  fnan : num                  (* np.nan *)
}.

Definition float_of_int (z : Z) : float :=
  match z with
  | Z0 => PrimFloat.zero
  | Zpos _ => PrimFloat.of_uint63 (Uint63.of_Z z)
  | Zneg p => PrimFloat.opp (PrimFloat.of_uint63 (Uint63.of_Z (Zpos p)))
  end.

#[export] Instance binary64 : Float64 float := {|
  fadd := PrimFloat.add;
  fsub := PrimFloat.sub;
  fmul := PrimFloat.mul;
  fdiv := PrimFloat.div;
  fsqrt := PrimFloat.sqrt;
  of_int := float_of_int;
  fgtb := fun x y => PrimFloat.ltb y x;
  feqb := PrimFloat.eqb;
  fisnan := PrimFloat.is_nan;
  fnan := PrimFloat.nan
|}.

(** Exact integer arithmetic, an instance on which addition is associative
    and commutative and no value is NaN. *)
#[export] Instance exact_integers : Float64 Z := {|
  fadd := Z.add;
  fsub := Z.sub;
  fmul := Z.mul;
  fdiv := Z.div;
  fsqrt := Z.sqrt;
  of_int := fun z => z;
  fgtb := Z.gtb;
  feqb := Z.eqb;
  fisnan := fun _ => false;
  fnan := 0%Z
|}.

(** ** Data frames and result dictionaries *)

Section Engine.

Context {num : Type} {F : Float64 num}.

(** One record of [price_data] or [nav_data]: its 'date' and 'close' keys. *)
Record PricePoint : Type := mkPoint { pp_date : Date; pp_close : num }.

(** One row of [merged], with the suffixed close columns. *)
Record Row : Type :=
  mkRow { date : Date; close_price : num; close_nav : num }.

(** The values the returned dict holds. *)
Inductive value : Type :=
| VStr (s : string)
| VInt (z : Z)
| VFloat (x : num).

(** A Python dict literal, in insertion order. *)
Definition dict : Type := list (string * value).

Fixpoint lookup (k : string) (d : dict) : option value :=
  match d with
  | [] => None
  | (k', v) :: d' => if String.eqb k k' then Some v else lookup k d'
  end.

Definition keys (d : dict) : list string := map fst d.

Definition empty {A : Type} (df : list A) : bool :=
  match df with [] => true | _ :: _ => false end.

(** ** The stages of the computation *)

(** [pd.merge(price_df, nav_df, on='date', suffixes=('_price', '_nav'))]:
    the inner join on equal 'date' cells, in the order of the left rows; the
    other columns of the records are carried along unused and left out.
    When a series repeats a date, pandas before 2.2 groups the joined rows
    by date instead; the rows are the same, and with distinct dates so is
    their order. *)
Definition merge (price nav : list PricePoint) : list Row :=
  flat_map
    (fun p =>
       map (fun n => mkRow (pp_date p) (pp_close p) (pp_close n))
           (filter (fun n => date_eqb (pp_date p) (pp_date n)) nav))
    price.

(** [(merged['close_price'] > 0) & (merged['close_nav'] > 0)]. *)
Definition both_positive (r : Row) : bool :=
  fgtb (close_price r) (of_int 0) && fgtb (close_nav r) (of_int 0).

(** [merged.sort_values('date')], as a stable insertion sort.  pandas sorts
    with numpy's quicksort, which leaves rows of equal date in another
    order; this definition is exact where the dates are distinct, and the
    properties that must hold for rows of equal date too are stated for
    every frame of [is_aligned_frame]. *)
Fixpoint insert_by_date (r : Row) (rows : list Row) : list Row :=
  match rows with
  | [] => [r]
  | r' :: rest =>
      if date_leb (date r) (date r') then r :: r' :: rest
      else r' :: insert_by_date r rest
  end.

Fixpoint sort_values (rows : list Row) : list Row :=
  match rows with
  | [] => []
  | r :: rest => insert_by_date r (sort_values rest)
  end.

(** [available_data['date'] >= start & available_data['date'] <= end]. *)
Definition in_window (start_date end_date : Date) (r : Row) : bool :=
  date_leb start_date (date r) && date_leb (date r) end_date.

(** numpy's pairwise summation of a block of at most 128 cells: a plain
    loop below 8 cells, otherwise 8 accumulators over the full groups of 8,
    added as a tree, then the remaining cells one by one. *)
Fixpoint unrolled_sum (r0 r1 r2 r3 r4 r5 r6 r7 : num) (a : list num) : num :=
  match a with
  | x0 :: x1 :: x2 :: x3 :: x4 :: x5 :: x6 :: x7 :: a' =>
      unrolled_sum (fadd r0 x0) (fadd r1 x1) (fadd r2 x2) (fadd r3 x3)
                   (fadd r4 x4) (fadd r5 x5) (fadd r6 x6) (fadd r7 x7) a'
  | rest =>
      fold_left fadd rest
        (fadd (fadd (fadd r0 r1) (fadd r2 r3))
              (fadd (fadd r4 r5) (fadd r6 r7)))
  end.

Definition block_sum (a : list num) : num :=
  match a with
  | x0 :: x1 :: x2 :: x3 :: x4 :: x5 :: x6 :: x7 :: a' =>
      unrolled_sum x0 x1 x2 x3 x4 x5 x6 x7 a'
  | _ => fold_left fadd a (of_int 0)
  end.

(** numpy's [pairwise_sum]: above 128 cells the array is cut at half its
    length rounded down to a multiple of 8 and the two sums are added.
    [fuel] bounds the depth of the cuts; the length of the array is always
    enough. *)
Fixpoint pairwise_sum (fuel : nat) (a : list num) : num :=
  match fuel with
  | O => block_sum a
  | S fuel' =>
      let n := length a in
      if (128 <? n)%nat then
        let n2 := (n / 2 - (n / 2) mod 8)%nat in
        fadd (pairwise_sum fuel' (firstn n2 a))
             (pairwise_sum fuel' (skipn n2 a))
      else block_sum a
  end.

(** [Series.sum()], that is [nanops.nansum]: NaN cells count as 0, and the
    pairwise sum of the column is added to the reduction's initial 0. *)
Definition sum (xs : list num) : num :=
  let values := map (fun x => if fisnan x then of_int 0 else x) xs in
  fadd (of_int 0) (pairwise_sum (length values) values).

(** [Series.mean()], that is [nanops.nanmean]: the same sum over the number
    of cells that are not NaN, and NaN when there is none. *)
Definition mean (xs : list num) : num :=
  let count := length (filter (fun x => negb (fisnan x)) xs) in
  if (count =? 0)%nat then fnan
  else fdiv (sum xs) (of_int (Z.of_nat count)).

(** [(price / nav) - 1.0] of one row. *)
Definition prem_disc (r : Row) : num :=
  fsub (fdiv (close_price r) (close_nav r)) (of_int 1).

(** [x ** 2]. *)
Definition square (x : num) : num := fmul x x.

(** The dict of an 'active' result. *)
Definition active_result (z_score current_pd avg_pd stddev_pd : num)
    (n : nat) (start_date end_date : Date) : dict :=
  [ ("z_score", VFloat z_score);
    ("current_pd", VFloat current_pd);
    ("current_pd_pct", VFloat (fmul current_pd (of_int 100)));
    ("avg_pd", VFloat avg_pd);
    ("avg_pd_pct", VFloat (fmul avg_pd (of_int 100)));
    ("stddev_pd", VFloat stddev_pd);
    ("stddev_pd_pct", VFloat (fmul stddev_pd (of_int 100)));
    ("data_points", VInt (Z.of_nat n));
    ("start_date", VStr (strftime_ymd start_date));
    ("end_date", VStr (strftime_ymd end_date));
    ("status", VStr "active") ]%string.

(** The function itself; [None] is Python's [None].  [iloc[-1]] is [last]:
    its default is never used, the window having at least 252 rows there. *)
Definition calculate_z_score_3yr
    (price_data nav_data : list PricePoint) (current_date : Date)
    : option dict :=
  if empty price_data || empty nav_data then None
  else
    let merged := merge price_data nav_data in
    let merged := filter both_positive merged in
    if empty merged then None
    else
      let merged := sort_values merged in
      let available_data :=
        filter (fun r => date_leb (date r) current_date) merged in
      match available_data with
      | [] => None
      | r0 :: rest =>
          let actual_end_date := series_max (date r0) (map date rest) in
          let three_year_start_date :=
            sub_DateOffset_years actual_end_date 3 in
          let window_data :=
            filter (in_window three_year_start_date actual_end_date)
                   available_data in
          if (length window_data <? 252)%nat then
            Some [ ("status", VStr "insufficient_data");
                   ("data_points", VInt (Z.of_nat (length window_data)));
                   ("required", VInt 252) ]%string
          else
            let pds := map prem_disc window_data in
            let current_pd := last pds (of_int 0) in
            let avg_pd := mean pds in
            let variance :=
              fdiv (sum (map (fun x => square (fsub x avg_pd)) pds))
                   (of_int (Z.of_nat (length window_data))) in
            let stddev_pd := fsqrt variance in
            if feqb stddev_pd (of_int 0) then
              Some (active_result (of_int 0) current_pd avg_pd stddev_pd
                      (length window_data) three_year_start_date
                      actual_end_date)
            else
              let z_score := fdiv (fsub current_pd avg_pd) stddev_pd in
              Some (active_result z_score current_pd avg_pd stddev_pd
                      (length window_data) three_year_start_date
                      actual_end_date)
      end.

(** ** The three stages, as the specification names them *)

(** Series Aligner: merge, positive-close mask, sort (source lines 111-125). *)
Definition aligned (price nav : list PricePoint) : list Row :=
  sort_values (filter both_positive (merge price nav)).

(** A lookback window: its bounds and its rows. *)
Record Window : Type :=
  mkWindow { w_start : Date; w_end : Date; w_rows : list Row }.

(** Window Selector (source lines 127-142). *)
Definition select_window (al : list Row) (current_date : Date)
    : option Window :=
  match filter (fun r => date_leb (date r) current_date) al with
  | [] => None
  | r0 :: rest =>
      let actual_end_date := series_max (date r0) (map date rest) in
      let three_year_start_date := sub_DateOffset_years actual_end_date 3 in
      Some (mkWindow three_year_start_date actual_end_date
              (filter (in_window three_year_start_date actual_end_date)
                      (r0 :: rest)))
  end.

(** The dict of the threshold branch (source lines 145-150). *)
Definition insufficient_result (n : nat) : dict :=
  [ ("status", VStr "insufficient_data");
    ("data_points", VInt (Z.of_nat n));
    ("required", VInt 252) ]%string.

(** Threshold check and Statistics Engine (source lines 144-196). *)
Definition score_window (w : Window) : dict :=
  let window_data := w_rows w in
  if (length window_data <? 252)%nat then
    insufficient_result (length window_data)
  else
    let pds := map prem_disc window_data in
    let current_pd := last pds (of_int 0) in
    let avg_pd := mean pds in
    let variance :=
      fdiv (sum (map (fun x => square (fsub x avg_pd)) pds))
           (of_int (Z.of_nat (length window_data))) in
    let stddev_pd := fsqrt variance in
    if feqb stddev_pd (of_int 0) then
      active_result (of_int 0) current_pd avg_pd stddev_pd
        (length window_data) (w_start w) (w_end w)
    else
      active_result (fdiv (fsub current_pd avg_pd) stddev_pd)
        current_pd avg_pd stddev_pd
        (length window_data) (w_start w) (w_end w).

(** ** The statistics, as source lines 159-164 compute them *)

(** [((x - x.mean()) ** 2).sum() / len(x)]. *)
Definition population_variance (xs : list num) : num :=
  fdiv (sum (map (fun x => square (fsub x (mean xs))) xs))
       (of_int (Z.of_nat (length xs))).

Definition population_stddev (xs : list num) : num :=
  fsqrt (population_variance xs).

(** The sample convention, dividing by n - 1, for contrast. *)
Definition sample_stddev (xs : list num) : num :=
  fsqrt (fdiv (sum (map (fun x => square (fsub x (mean xs))) xs))
              (of_int (Z.of_nat (length xs) - 1))).

(** ** Predicates the properties are stated with *)

Definition date_le_rows (a b : Row) : Prop :=
  date_leb (date a) (date b) = true.

Definition date_lt_rows (a b : Row) : Prop :=
  date_ltb (date a) (date b) = true.

(** Sorted ascending by date, ties allowed. *)
Definition ascending (rows : list Row) : Prop :=
  StronglySorted date_le_rows rows.

(** Sorted ascending by date, no two rows on one date. *)
Definition strictly_ascending (rows : list Row) : Prop :=
  StronglySorted date_lt_rows rows.

(** The window starts on the month and day of its end, three years earlier. *)
Definition same_month_day_3y_earlier (w : Window) : Prop :=
  w_start w = mkDate (year (w_end w) - 3) (month (w_end w)) (day (w_end w)).

(** The frames source lines 111-125 can leave for two series: the joined
    rows with two positive closes, ascending by date, the rows of one date
    in whatever order the join and the sort kind of the installed pandas
    and numpy leave them.  [aligned] is one of them. *)
Definition is_aligned_frame (price nav : list PricePoint) (frame : list Row)
    : Prop :=
  Permutation frame (filter both_positive (merge price nav)) /\
  ascending frame.

(** What the function returns when lines 111-125 leave [frame]. *)
Definition result_on (frame : list Row) (current_date : Date) : option dict :=
  option_map score_window (select_window frame current_date).

(** The sum of a list in the textbook sense, one term after the other. *)
Definition sigma (xs : list num) : num := fold_right fadd (of_int 0) xs.

(** An arithmetic in which the order of additions does not matter and every
    value is a number. *)
Definition exact_arithmetic : Prop :=
  (forall x y z, fadd x (fadd y z) = fadd (fadd x y) z) /\
  (forall x y, fadd x y = fadd y x) /\
  (forall x, fadd (of_int 0) x = x) /\
  (forall x, fisnan x = false).

End Engine.

Arguments PricePoint : clear implicits.
Arguments Row : clear implicits.
Arguments Window : clear implicits.
Arguments value : clear implicits.
Arguments dict : clear implicits.

(** ** Ordinal days, as Python's [datetime] counts them *)

Definition days_before_year (y : Z) : Z :=
  let y1 := (y - 1)%Z in (y1 * 365 + y1 / 4 - y1 / 100 + y1 / 400)%Z.

Definition DAYS_BEFORE_MONTH : list Z :=
  [-1; 0; 31; 59; 90; 120; 151; 181; 212; 243; 273; 304; 334]%Z.

Definition DAYS_IN_MONTH : list Z :=
  [-1; 31; 28; 31; 30; 31; 30; 31; 31; 30; 31; 30; 31]%Z.

Definition days_before_month (leap : bool) (m : Z) : Z :=
  (nth (Z.to_nat m) DAYS_BEFORE_MONTH 0
   + (if (2 <? m) && leap then 1 else 0))%Z.

(** [date.toordinal()]. *)
Definition ymd2ord (d : Date) : Z :=
  (days_before_year (year d)
   + days_before_month (is_leap (year d)) (month d) + day d)%Z.

(** [date.fromordinal(n)]. *)
Definition ord2ymd (n : Z) : Date :=
  let n := (n - 1)%Z in
  let n400 := (n / 146097)%Z in
  let n := (n mod 146097)%Z in
  let n100 := (n / 36524)%Z in
  let n := (n mod 36524)%Z in
  let n4 := (n / 1461)%Z in
  let n := (n mod 1461)%Z in
  let n1 := (n / 365)%Z in
  let n := (n mod 365)%Z in
  let y := (n400 * 400 + 1 + n100 * 100 + n4 * 4 + n1)%Z in
  if ((n1 =? 4) || (n100 =? 4))%Z then mkDate (y - 1) 12 31
  else
    let leapyear := ((n1 =? 3) && (negb (n4 =? 24) || (n100 =? 3)))%Z in
    let m := ((n + 50) / 32)%Z in
    let preceding := days_before_month leapyear m in
    if (n <? preceding)%Z then
      let m := (m - 1)%Z in
      let preceding :=
        (preceding
         - (nth (Z.to_nat m) DAYS_IN_MONTH 0
            + (if (m =? 2) && leapyear then 1 else 0)))%Z in
      mkDate y m (n - preceding + 1)
    else mkDate y m (n - preceding + 1).

(** [d - timedelta(days=k)]. *)
Definition minus_days (d : Date) (k : Z) : Date := ord2ymd (ymd2ord d - k).

(** Every date of the years [first], ..., [first + years - 1]. *)
Definition dates_of_year (y : Z) : list Date :=
  flat_map
    (fun m => map (fun d => mkDate y (Z.of_nat m) (Z.of_nat d))
                  (seq 1 (Z.to_nat (days_in_month y (Z.of_nat m)))))
    (seq 1 12).

Definition dates_of_years (first : Z) (years : nat) : list Date :=
  flat_map (fun i => dates_of_year (first + Z.of_nat i)) (seq 0 years).

(** ** Exceptions, and [str.upper] *)

Inductive exn : Type :=
| KeyError (key : string)
| TypeError
| ValueError (message : string).

Inductive Outcome (A : Type) : Type :=
| Returned (a : A)
| Raised (e : exn).

Arguments Returned {A} a.
Arguments Raised {A} e.

Definition upper_ascii (c : ascii) : ascii :=
  let n := nat_of_ascii c in
  if ((97 <=? n) && (n <=? 122))%nat then ascii_of_nat (n - 32) else c.

(** [s.upper()] on ASCII text. *)
Fixpoint upper (s : string) : string :=
  match s with
  | EmptyString => EmptyString
  | String c s' => String (upper_ascii c) (upper s')
  end.

(** ** The module's start-up checks (source lines 27-37) *)

Record Config : Type :=
  mkConfig { TIINGO_API_KEY : string;
             SUPABASE_URL : string;
             SUPABASE_SERVICE_KEY : string }.

(** Python's [not v] for the [str | None] that [os.getenv] returns. *)
Definition falsy (v : option string) : bool :=
  match v with
  | None => true
  | Some s => String.eqb s EmptyString
  end.

Definition or_empty (v : option string) : string :=
  match v with Some s => s | None => EmptyString end.

(** What importing the module does with the environment [getenv] reads. *)
Definition load_module (getenv : string -> option string) : Outcome Config :=
  let tiingo_api_key := getenv "TIINGO_API_KEY"%string in
  let supabase_url := getenv "SUPABASE_URL"%string in
  let supabase_service_key := getenv "SUPABASE_SERVICE_ROLE_KEY"%string in
  if falsy tiingo_api_key then
    Raised (ValueError "TIINGO_API_KEY environment variable is required")
  else if falsy supabase_url || falsy supabase_service_key then
    Raised (ValueError "Supabase credentials are required")
  else
    Returned (mkConfig (or_empty tiingo_api_key) (or_empty supabase_url)
                       (or_empty supabase_service_key)).

(** ** Fetching, storing, and the driver *)

Section Pipeline.

Context {num : Type} {F : Float64 num}.

(** A JSON value of a Tiingo record: null, a number or a string. *)
Inductive Json : Type :=
| JNull
| JNumber (x : num)
| JString (s : string).

(** A Python dict with string keys, in insertion order. *)
Definition pydict : Type := list (string * Json).

(** [d[k]], absent when the key is. *)
Fixpoint dict_index (k : string) (d : pydict) : option Json :=
  match d with
  | [] => None
  | (k', v) :: d' => if String.eqb k k' then Some v else dict_index k d'
  end.

(** [d.get(k)]. *)
Definition dict_get (k : string) (d : pydict) : Json :=
  match dict_index k d with Some v => v | None => JNull end.

(** What [requests.get(url, params=params)] is asked. *)
Record Request : Type :=
  mkRequest { url : string; params : list (string * string) }.

(** What comes back: a [RequestException] somewhere between the call and
    [response.json()], or the decoded array of records. *)
Inductive Response : Type :=
| RequestException
| Body (data : list pydict).

(** [record['date'][:10]]. *)
Definition first_ten (v : Json) : Outcome Json :=
  match v with
  | JString s => Returned (JString (substring 0 10 s))
  | JNull | JNumber _ => Raised TypeError
  end.

(** The dict appended for one record (source lines 67-74). *)
Definition standardize (record : pydict) : Outcome pydict :=
  match dict_index "date" record with
  | None => Raised (KeyError "date")
  | Some d =>
      match first_ten d with
      | Raised e => Raised e
      | Returned d10 =>
          match dict_index "close" record with
          | None => Raised (KeyError "close")
          | Some c =>
              Returned [ ("date", d10);
                         ("close", c);
                         ("open", dict_get "open" record);
                         ("high", dict_get "high" record);
                         ("low", dict_get "low" record);
                         ("volume", dict_get "volume" record) ]%string
          end
      end
  end.

(** The loop [for record in data: prices.append(...)]. *)
Fixpoint append_prices (data : list pydict) (prices : list pydict)
    : Outcome (list pydict) :=
  match data with
  | [] => Returned prices
  | record :: rest =>
      match standardize record with
      | Raised e => Raised e
      | Returned price => append_prices rest (prices ++ [price])
      end
  end.

(** [get_tiingo_prices], given what the network answers and the API key. *)
Definition get_tiingo_prices (requests_get : Request -> Response)
    (api_key : string) (ticker start_date end_date : string)
    : Outcome (list pydict) :=
  let url :=
    ("https://api.tiingo.com/tiingo/daily/" ++ ticker ++ "/prices")%string in
  let params :=
    [ ("startDate", start_date); ("endDate", end_date);
      ("token", api_key) ]%string in
  match requests_get (mkRequest url params) with
  | RequestException => Returned []
  | Body data => append_prices data []
  end.

(** A record as Tiingo sends it: an ISO timestamp and a close. *)
Definition tiingo_record (d : Date) (time : string) (c : num) : pydict :=
  [ ("date", JString (strftime_ymd d ++ time)); ("close", JNumber c);
    ("adjClose", JNumber c) ]%string.

(** A row of the table [etf_static]: the columns the script writes, the key
    it selects on, and the rest. *)
Record EtfRow : Type :=
  mkEtf { ticker : string;
          five_year_z_score : option (value num);   (* [None] is NULL *)
          last_updated : string;
          updated_at : string;
          other_columns : list (string * string) }.

(** [UPDATE etf_static SET five_year_z_score = %s, last_updated = %s,
    updated_at = %s WHERE ticker = %s]. *)
Definition update_etf_static (z_score : option (value num))
    (stamp1 stamp2 key : string) (table : list EtfRow) : list EtfRow :=
  map (fun row =>
         if String.eqb (ticker row) key then
           mkEtf (ticker row) z_score stamp1 stamp2 (other_columns row)
         else row)
      table.

(** What a call may do to a row: nothing, or overwrite the three columns of
    a row selected by [key]. *)
Definition row_kept_or_updated (key : string) (old new : EtfRow) : Prop :=
  ticker new = ticker old /\
  other_columns new = other_columns old /\
  (ticker old <> key -> new = old).

(** What one call of [fetch_and_store_zscore] finds outside itself:
    what [get_tiingo_prices] gives for a symbol and a date range, as the
    DataFrame constructor reads it; the date of the first [datetime.now()];
    the [isoformat()] of the second; and whether the UPDATE commits or the
    driver raises. *)
Record World : Type :=
  mkWorld { fetched : string -> Date -> Date -> Outcome (list (PricePoint num));
            today : Date;
            timestamp : string;
            commits : bool }.

(** [result.get('status') == 'insufficient_data']. *)
Definition is_insufficient (result : dict num) : bool :=
  match lookup "status" result with
  | Some (VStr s) => String.eqb s "insufficient_data"
  | _ => false
  end.

(** [fetch_and_store_zscore]: the table after the call.  Every exception is
    caught by the function's [except Exception], which leaves the table as
    it was; what the function prints is not modelled. *)
Definition fetch_and_store_zscore (w : World) (tk nav_symbol : string)
    (table : list EtfRow) : list EtfRow :=
  let end_date := today w in
  let start_date := minus_days end_date (4 * 365) in
  let current_date := end_date in
  match fetched w tk start_date end_date with
  | Raised _ => table
  | Returned price_data =>
      if empty price_data then table
      else
        match fetched w nav_symbol start_date end_date with
        | Raised _ => table
        | Returned nav_data =>
            if empty nav_data then table
            else
              match calculate_z_score_3yr price_data nav_data current_date
              with
              | None => table
              | Some result =>
                  let z_score :=
                    if is_insufficient result then Returned None
                    else
                      match lookup "z_score" result with
                      | Some z => Returned (Some z)
                      | None => Raised (KeyError "z_score")
                      end in
                  match z_score with
                  | Raised _ => table
                  | Returned z =>
                      if commits w then
                        update_etf_static z (timestamp w) (timestamp w)
                                          (upper tk) table
                      else table
                  end
              end
        end
  end.

(** The pairs [main] processes. *)
Definition tickers : list (string * string) := [("GAB", "XGABX")]%string.

(** [main]: the table after the run.  [connects] tells whether
    [psycopg2.connect] succeeds; [world] gives the surroundings of the call
    for each pair. *)
Definition main (connects : bool) (world : string -> World)
    (table : list EtfRow) : list EtfRow :=
  if connects then
    fold_left
      (fun table pair =>
         fetch_and_store_zscore (world (fst pair)) (fst pair) (snd pair)
                                table)
      tickers table
  else table.

End Pipeline.

Arguments Json : clear implicits.
Arguments pydict : clear implicits.
Arguments Response : clear implicits.
Arguments EtfRow : clear implicits.
Arguments World : clear implicits.

(** ** Inputs the examples run on *)

(** [days] consecutive days in each of [months] consecutive months of 2023,
    from month [first] on. *)
Definition dates_2023 (first months days : nat) : list Date :=
  flat_map
    (fun m => map (fun d => mkDate 2023 (Z.of_nat m) (Z.of_nat d))
                  (seq 1 days))
    (seq first months).

(** A series that closes at [c] on every date of [ds]. *)
Definition flat_series (c : float) (ds : list Date)
    : list (PricePoint float) :=
  map (fun d => mkPoint d c) ds.

(** 252 observations: 21 days in each month of 2023. *)
Definition trading_year : list Date := dates_2023 1 12 21.

Definition as_of : Date := mkDate 2024 1 1.

(** Fund and NAV both flat at 10.00. *)
Definition flat_prices : list (PricePoint float) :=
  flat_series 10 trading_year.

Definition flat_navs : list (PricePoint float) :=
  flat_series 10 trading_year.

(** The NAV series with its first observation missing: 251 matches. *)
Definition short_navs : list (PricePoint float) := tl flat_navs.

(** A discount of 5% for ten months, then a premium of 5% for two. *)
Definition two_level_prices : list (PricePoint float) :=
  (flat_series 9.5 (dates_2023 1 10 21)
   ++ flat_series 10.5 (dates_2023 11 2 21))%list.

Definition flat_window : Window float :=
  mkWindow (mkDate 2020 12 21) (mkDate 2023 12 21)
    (map (fun d => mkRow d 10%float 10%float) trading_year).

Definition two_level_window : Window float :=
  mkWindow (mkDate 2020 12 21) (mkDate 2023 12 21)
    (map (fun d => mkRow d 9.5%float 10%float) (dates_2023 1 10 21)
     ++ map (fun d => mkRow d 10.5%float 10%float) (dates_2023 11 2 21))%list.

Definition short_window : Window float :=
  mkWindow (mkDate 2020 12 21) (mkDate 2023 12 21)
    (map (fun d => mkRow d 10%float 10%float) (tl trading_year)).

(** A fund whose latest observation falls on 29 February 2024. *)
Definition leap_day : Date := mkDate 2024 2 29.

Definition leap_series : list (PricePoint float) :=
  [mkPoint (mkDate 2021 2 28) 10%float; mkPoint leap_day 10%float].

Definition leap_window : Window float :=
  mkWindow (mkDate 2021 2 28) leap_day
    [mkRow (mkDate 2021 2 28) 10%float 10%float;
     mkRow leap_day 10%float 10%float].

(** Three fund records out of date order, one of them closing at zero. *)
Definition unordered_prices : list (PricePoint float) :=
  [ mkPoint (mkDate 2023 3 1) 10%float;
    mkPoint (mkDate 2023 1 1) 11%float;
    mkPoint (mkDate 2023 2 1) 0%float ].

Definition ordered_navs : list (PricePoint float) :=
  [ mkPoint (mkDate 2023 1 1) 10%float;
    mkPoint (mkDate 2023 2 1) 9%float;
    mkPoint (mkDate 2023 3 1) 8%float ].

(** The first row of the frame aligned from the flat series. *)
Definition first_flat_row : Row float :=
  mkRow (mkDate 2023 1 1) 10%float 10%float.

(** What the function returns on 251 matching observations. *)
Definition short_result : dict float :=
  [ ("status", VStr "insufficient_data");
    ("data_points", VInt 251);
    ("required", VInt 252) ]%string.

(** What the function returns on the flat series. *)
Definition flat_result : dict float :=
  [ ("z_score", VFloat 0%float);
    ("current_pd", VFloat 0%float);
    ("current_pd_pct", VFloat 0%float);
    ("avg_pd", VFloat 0%float);
    ("avg_pd_pct", VFloat 0%float);
    ("stddev_pd", VFloat 0%float);
    ("stddev_pd_pct", VFloat 0%float);
    ("data_points", VInt 252);
    ("start_date", VStr "2020-12-21");
    ("end_date", VStr "2023-12-21");
    ("status", VStr "active") ]%string.

(** A table with a row for GAB and a row for another fund. *)
Definition gab_row : EtfRow float :=
  mkEtf "GAB" (Some (VFloat 1.5%float)) "2023-06-01T00:00:00"
        "2023-06-01T00:00:00" [("name", "Gabelli Equity Trust")]%string.

Definition pdi_row : EtfRow float :=
  mkEtf "PDI" (Some (VFloat (-0.5)%float)) "2023-06-01T00:00:00"
        "2023-06-01T00:00:00" []%list.

Definition small_table : list (EtfRow float) := [gab_row; pdi_row].

(** Surroundings in which the NAV symbol XGABX gets [navs] and every other
    symbol gets [prices]. *)
Definition world_of (prices navs : list (PricePoint float)) : World float :=
  mkWorld
    (fun symbol _ _ =>
       if String.eqb symbol "XGABX" then Returned navs else Returned prices)
    as_of "2024-01-01T09:30:00" true.

Definition flat_world : World float := world_of flat_prices flat_navs.

Definition short_world : World float := world_of flat_prices short_navs.

Definition two_level_world : World float :=
  world_of two_level_prices flat_navs.

(** Surroundings in which a record of the answer lacks its 'close'. *)
Definition broken_world : World float :=
  mkWorld (fun _ _ _ => Raised (KeyError "close")) as_of
          "2024-01-01T09:30:00" true.

(** The network answering every request with [response]. *)
Definition network (response : Response float) : Request -> Response float :=
  fun _ => response.

Definition tiingo_body : list (pydict float) :=
  [ tiingo_record (mkDate 2024 1 2) "T00:00:00.000Z" 5.5%float;
    tiingo_record (mkDate 2024 1 3) "T00:00:00.000Z" 5.75%float ].

(** A record without its 'close'. *)
Definition closeless_record : pydict float :=
  [ ("date", JString "2024-01-04T00:00:00.000Z") ]%string.

(** An environment with all three variables set. *)
Definition full_env (name : string) : option string :=
  if String.eqb name "TIINGO_API_KEY" then Some "k"%string
  else if String.eqb name "SUPABASE_URL" then Some "https://x.supabase.co"%string
  else if String.eqb name "SUPABASE_SERVICE_ROLE_KEY" then Some "s"%string
  else None.

(** The same kind of series over the integers. *)
Definition int_series (c : Z) (ds : list Date) : list (PricePoint Z) :=
  map (fun d => mkPoint d c) ds.

(** A premium of 200% for ten months, then none for two, on a NAV of 10. *)
Definition int_two_level_prices : list (PricePoint Z) :=
  (int_series 30 (dates_2023 1 10 21) ++ int_series 10 (dates_2023 11 2 21))%list.

Definition int_flat_navs : list (PricePoint Z) := int_series 10 trading_year.

Definition int_two_level_window : Window Z :=
  mkWindow (mkDate 2020 12 21) (mkDate 2023 12 21)
    (map (fun d => mkRow d 30%Z 10%Z) (dates_2023 1 10 21)
     ++ map (fun d => mkRow d 10%Z 10%Z) (dates_2023 11 2 21))%list.

(** A fund that closes at 9.50 on a NAV of 10.00 on every date: the same
    discount of about 5% throughout. *)
Definition discount_prices : list (PricePoint float) :=
  flat_series 9.5 trading_year.

Definition discount_window : Window float :=
  mkWindow (mkDate 2020 12 21) (mkDate 2023 12 21)
    (map (fun d => mkRow d 9.5%float 10%float) trading_year).

(** A fund that closes at 9.00 on a NAV of 10.00 on every date. *)
Definition tenth_off_prices : list (PricePoint float) :=
  flat_series 9 trading_year.

Definition tenth_off_window : Window float :=
  mkWindow (mkDate 2020 12 21) (mkDate 2023 12 21)
    (map (fun d => mkRow d 9%float 10%float) trading_year).

(** Series that start with an observation of 2019. *)
Definition old_prices : list (PricePoint float) :=
  mkPoint (mkDate 2019 6 3) 12%float :: unordered_prices.

Definition old_navs : list (PricePoint float) :=
  mkPoint (mkDate 2019 6 3) 10%float :: ordered_navs.

Definition recent_window : Window float :=
  mkWindow (mkDate 2020 3 1) (mkDate 2023 3 1)
    [ mkRow (mkDate 2023 1 1) 11%float 10%float;
      mkRow (mkDate 2023 3 1) 10%float 8%float ].

(** The keys only an 'active' result has. *)
Definition statistics_keys : list string :=
  [ "z_score"; "current_pd"; "current_pd_pct"; "avg_pd"; "avg_pd_pct";
    "stddev_pd"; "stddev_pd_pct"; "start_date"; "end_date" ]%string.

Definition active_keys : list string :=
  [ "z_score"; "current_pd"; "current_pd_pct"; "avg_pd"; "avg_pd_pct";
    "stddev_pd"; "stddev_pd_pct"; "data_points"; "start_date"; "end_date";
    "status" ]%string.

(** ** Facts about dates *)

Lemma date_eqb_eq (a b : Date) : date_eqb a b = true <-> a = b.
Proof.
  destruct a as [ya ma da], b as [yb mb db]; unfold date_eqb; simpl.
  rewrite !andb_true_iff, !Z.eqb_eq. split.
  - intros [[-> ->] ->]. reflexivity.
  - intros E. injection E as -> -> ->. auto.
Qed.

Ltac date_order :=
  unfold date_ltb, date_leb in *; simpl in *;
  repeat match goal with
    | H : negb _ = true |- _ => apply negb_true_iff in H
    | |- negb _ = true => apply negb_true_iff
    end;
  repeat match goal with
    | H : _ = false |- _ => apply not_true_iff_false in H
    | |- _ = false => apply not_true_iff_false
    end;
  rewrite ?orb_true_iff, ?andb_true_iff, ?Z.ltb_lt, ?Z.eqb_eq, ?Z.leb_le in *.

Lemma date_leb_refl (a : Date) : date_leb a a = true.
Proof. destruct a; date_order. lia. Qed.

Lemma date_leb_trans (a b c : Date) :
  date_leb a b = true -> date_leb b c = true -> date_leb a c = true.
Proof.
  destruct a, b, c; intros H1 H2; date_order. lia.
Qed.

Lemma date_leb_antisym (a b : Date) :
  date_leb a b = true -> date_leb b a = true -> a = b.
Proof.
  destruct a, b; intros H1 H2; date_order.
  assert (year0 = year1 /\ month0 = month1 /\ day0 = day1) as (-> & -> & ->)
    by lia.
  reflexivity.
Qed.

Lemma date_leb_total (a b : Date) :
  date_leb a b = true \/ date_leb b a = true.
Proof. destruct a, b; date_order. lia. Qed.

Lemma date_ltb_leb (a b : Date) : date_ltb a b = true -> date_leb a b = true.
Proof.
  unfold date_ltb. intros H. apply negb_true_iff in H.
  destruct (date_leb_total a b) as [E | E]; congruence.
Qed.

Lemma date_ltb_irrefl (a : Date) : date_ltb a a = false.
Proof. unfold date_ltb. now rewrite date_leb_refl. Qed.

Lemma date_ltb_asym (a b : Date) :
  date_ltb a b = true -> date_ltb b a = true -> False.
Proof.
  unfold date_ltb. intros H1 H2.
  apply negb_true_iff in H1, H2.
  destruct (date_leb_total a b); congruence.
Qed.

Lemma later_ge_l (a b : Date) : date_leb a (later a b) = true.
Proof.
  unfold later. destruct (date_leb a b) eqn:E; auto using date_leb_refl.
Qed.

Lemma later_ge_r (a b : Date) : date_leb b (later a b) = true.
Proof.
  unfold later. destruct (date_leb a b) eqn:E; auto using date_leb_refl.
  destruct (date_leb_total a b); congruence.
Qed.

Lemma series_max_ge_first (ds : list Date) (d0 : Date) :
  date_leb d0 (series_max d0 ds) = true.
Proof.
  unfold series_max. revert d0.
  induction ds as [| d ds IH]; intros d0; simpl.
  - apply date_leb_refl.
  - eapply date_leb_trans; [apply later_ge_l | apply IH].
Qed.

Lemma series_max_ge (ds : list Date) (d0 d : Date) :
  In d (d0 :: ds) -> date_leb d (series_max d0 ds) = true.
Proof.
  revert d0. induction ds as [| d1 ds IH]; intros d0 [<- | Hin].
  - apply date_leb_refl.
  - destruct Hin.
  - apply series_max_ge_first.
  - unfold series_max; simpl. destruct Hin as [<- | Hin].
    + eapply date_leb_trans; [apply later_ge_r | apply series_max_ge_first].
    + apply (IH (later d0 d1)). now right.
Qed.

Lemma series_max_in (ds : list Date) (d0 : Date) :
  In (series_max d0 ds) (d0 :: ds).
Proof.
  revert d0. induction ds as [| d1 ds IH]; intros d0.
  - now left.
  - unfold series_max; simpl.
    destruct (IH (later d0 d1)) as [E | Hin].
    + unfold series_max in E. rewrite <- E. unfold later.
      destruct (date_leb d0 d1); auto.
    + right. now right.
Qed.

(** Three years back is strictly earlier. *)
Lemma sub_DateOffset_years_before (d : Date) :
  date_leb (sub_DateOffset_years d 3) d = true.
Proof. destruct d; unfold sub_DateOffset_years; date_order. lia. Qed.

(** The day is kept unless the date is a 29 February. *)
Lemma sub_DateOffset_years_day (d : Date) :
  valid_date d = true ->
  ~ (month d = 2%Z /\ day d = 29%Z) ->
  day (sub_DateOffset_years d 3) = day d.
Proof.
  destruct d as [y m dd]; unfold valid_date, sub_DateOffset_years; simpl.
  rewrite !andb_true_iff, !Z.leb_le. intros [[[Hm1 Hm2] Hd1] Hd2] Hfeb.
  apply Z.min_l. unfold days_in_month in *.
  destruct (m =? 2)%Z eqn:E2.
  - apply Z.eqb_eq in E2.
    destruct (is_leap y), (is_leap (y - 3)); lia.
  - exact Hd2.
Qed.

(** ** Facts about the data-frame operations *)

Section Frames.

Context {num : Type} {F : Float64 num}.

Lemma Permutation_filter_bool (A : Type) (f : A -> bool) (l l' : list A) :
  Permutation l l' -> Permutation (filter f l) (filter f l').
Proof.
  induction 1 as [| x l l' _ IH | x y l | l l' l'' _ IH1 _ IH2]; simpl.
  - constructor.
  - destruct (f x); auto.
  - destruct (f x), (f y); auto using perm_swap.
  - now transitivity (filter f l').
Qed.

Lemma NoDup_map_filter (A B : Type) (g : A -> B) (f : A -> bool)
    (l : list A) :
  NoDup (map g l) -> NoDup (map g (filter f l)).
Proof.
  induction l as [| x l IH]; simpl; intros H; [constructor |].
  inversion H as [| ? ? Hnotin Hnd]; subst.
  destruct (f x); simpl; auto.
  constructor; auto.
  intros Hin. apply Hnotin.
  apply in_map_iff in Hin as (y & <- & Hy).
  apply in_map. apply filter_In in Hy. tauto.
Qed.

Lemma filter_filter_bool (A : Type) (f g : A -> bool) (l : list A) :
  filter f (filter g l) = filter (fun x => g x && f x) l.
Proof.
  induction l as [| x l IH]; simpl; [reflexivity |].
  destruct (g x); simpl; rewrite ?IH; reflexivity.
Qed.

Lemma filter_all (A : Type) (f : A -> bool) (l : list A) :
  (forall x, In x l -> f x = true) -> filter f l = l.
Proof.
  induction l as [| x l IH]; simpl; intros H; [reflexivity |].
  rewrite (H x (or_introl eq_refl)). f_equal. apply IH.
  intros y Hy. apply H. now right.
Qed.

Lemma filter_none (A : Type) (f : A -> bool) (l : list A) :
  (forall x, In x l -> f x = false) -> filter f l = [].
Proof.
  induction l as [| x l IH]; simpl; intros H; [reflexivity |].
  rewrite (H x (or_introl eq_refl)). apply IH. intros y Hy. apply H. now right.
Qed.

Lemma last_map_nonempty (A B : Type) (g : A -> B) (l : list A) (a : A)
    (b : B) :
  l <> [] -> last (map g l) b = g (last l a).
Proof.
  induction l as [| x l IH]; [congruence |]. intros _.
  destruct l as [| y l]; [reflexivity |].
  change (last (map g (y :: l)) b = g (last (y :: l) a)).
  apply IH. discriminate.
Qed.

Lemma last_In (A : Type) (l : list A) (a : A) : l <> [] -> In (last l a) l.
Proof.
  induction l as [| x l IH]; [congruence |]. intros _.
  destruct l as [| y l]; [now left |].
  right. apply IH. discriminate.
Qed.

(** *** The merge *)

Lemma merge_nil_r (price : list (PricePoint num)) : merge price [] = [].
Proof. induction price; simpl; auto. Qed.

Lemma in_merge (price nav : list (PricePoint num)) (r : Row num) :
  In r (merge price nav) <->
  exists p n, In p price /\ In n nav /\ pp_date p = pp_date n /\
              r = mkRow (pp_date p) (pp_close p) (pp_close n).
Proof.
  unfold merge. rewrite in_flat_map. split.
  - intros (p & Hp & Hr). apply in_map_iff in Hr as (n & <- & Hn).
    apply filter_In in Hn as [Hn E]. apply date_eqb_eq in E.
    exists p, n. auto.
  - intros (p & n & Hp & Hn & E & ->). exists p. split; [assumption |].
    apply in_map_iff. exists n. split; [reflexivity |].
    apply filter_In. split; [assumption |]. now apply date_eqb_eq.
Qed.

Lemma merge_Permutation_l (price price' nav : list (PricePoint num)) :
  Permutation price price' ->
  Permutation (merge price nav) (merge price' nav).
Proof. intros H. unfold merge. now apply Permutation_flat_map. Qed.

Lemma merge_Permutation_r (price nav nav' : list (PricePoint num)) :
  Permutation nav nav' ->
  Permutation (merge price nav) (merge price nav').
Proof.
  intros H. induction price as [| p price IH]; simpl; [constructor |].
  apply Permutation_app; [| exact IH].
  apply Permutation_map. now apply Permutation_filter_bool.
Qed.

(** A date matches at most one record of a series with distinct dates. *)
Lemma matches_at_most_one (nav : list (PricePoint num)) (d : Date) :
  NoDup (map pp_date nav) ->
  (length (filter (fun n => date_eqb d (pp_date n)) nav) <= 1)%nat.
Proof.
  induction nav as [| n nav IH]; simpl; intros H; [lia |].
  inversion H as [| ? ? Hnotin Hnd]; subst.
  destruct (date_eqb d (pp_date n)) eqn:E; [| auto].
  apply date_eqb_eq in E. subst d.
  replace (filter (fun n0 => date_eqb (pp_date n) (pp_date n0)) nav)
    with (@nil (PricePoint num)); [simpl; lia |].
  symmetry. apply filter_none. intros m Hm.
  apply not_true_iff_false. intros E.
  apply date_eqb_eq in E. apply Hnotin. rewrite E. now apply in_map.
Qed.

Lemma merge_dates_distinct (price nav : list (PricePoint num)) :
  NoDup (map pp_date price) -> NoDup (map pp_date nav) ->
  NoDup (map date (merge price nav)).
Proof.
  intros Hp Hn. induction price as [| p price IH]; simpl; [constructor |].
  inversion Hp as [| ? ? Hnotin Hnd]; subst.
  rewrite map_app, map_map; simpl.
  apply NoDup_app.
  - pose proof (@matches_at_most_one nav (pp_date p) Hn) as Hlen.
    destruct (filter _ nav) as [| n1 [| n2 rest]]; simpl in *;
      [constructor | | lia].
    constructor; [intros [] | constructor].
  - now apply IH.
  - intros d Hd Hd'. apply in_map_iff in Hd as (n & <- & _).
    apply in_map_iff in Hd' as (r & E & Hr).
    apply in_merge in Hr as (p' & n' & Hp' & _ & _ & ->). simpl in E.
    apply Hnotin. rewrite <- E. now apply in_map.
Qed.

(** *** The sort *)

Lemma insert_by_date_Permutation (r : Row num) (rows : list (Row num)) :
  Permutation (insert_by_date r rows) (r :: rows).
Proof.
  induction rows as [| r' rows IH]; simpl; [reflexivity |].
  destruct (date_leb (date r) (date r')); [reflexivity |].
  rewrite IH. apply perm_swap.
Qed.

Lemma sort_values_Permutation (rows : list (Row num)) :
  Permutation (sort_values rows) rows.
Proof.
  induction rows as [| r rows IH]; simpl; [constructor |].
  rewrite insert_by_date_Permutation. now constructor.
Qed.

Lemma insert_by_date_ascending (r : Row num) (rows : list (Row num)) :
  ascending rows -> ascending (insert_by_date r rows).
Proof.
  unfold ascending.
  induction rows as [| r' rows IH]; simpl; intros H.
  - constructor; [constructor | constructor].
  - apply StronglySorted_inv in H as [Hs Hall].
    destruct (date_leb (date r) (date r')) eqn:E.
    + constructor; [now constructor |].
      constructor; [exact E |].
      eapply Forall_impl; [| exact Hall].
      intros x Hx. unfold date_le_rows in *.
      eapply date_leb_trans; eassumption.
    + constructor; [now apply IH |].
      eapply Permutation_Forall;
        [symmetry; apply insert_by_date_Permutation |].
      constructor; [| exact Hall].
      unfold date_le_rows.
      destruct (date_leb_total (date r) (date r')); congruence.
Qed.

Lemma sort_values_ascending (rows : list (Row num)) :
  ascending (sort_values rows).
Proof.
  induction rows as [| r rows IH]; simpl.
  - constructor.
  - now apply insert_by_date_ascending.
Qed.

Lemma sort_values_nil_iff (rows : list (Row num)) :
  sort_values rows = [] <-> rows = [].
Proof.
  split; [| now intros ->].
  intros E. apply Permutation_nil.
  rewrite <- E. apply sort_values_Permutation.
Qed.

Lemma filter_StronglySorted (A : Type) (R : A -> A -> Prop)
    (f : A -> bool) (l : list A) :
  StronglySorted R l -> StronglySorted R (filter f l).
Proof.
  induction 1 as [| x l Hs IH Hall]; simpl; [constructor |].
  destruct (f x); [| exact IH].
  constructor; [exact IH |].
  apply Forall_forall. intros y Hy. apply filter_In in Hy as [Hy _].
  eapply Forall_forall in Hall; eassumption.
Qed.

(** The last row of an ascending frame carries its greatest date. *)
Lemma ascending_last_ge (rows : list (Row num)) (r0 r : Row num) :
  ascending rows -> In r rows ->
  date_leb (date r) (date (last rows r0)) = true.
Proof.
  induction 1 as [| x l Hs IH Hall]; intros Hin; [destruct Hin |].
  destruct l as [| y l].
  - destruct Hin as [<- | []]. apply date_leb_refl.
  - change (last (x :: y :: l) r0) with (last (y :: l) r0).
    destruct Hin as [<- | Hin]; [| now apply IH].
    eapply Forall_forall in Hall; [exact Hall |].
    apply last_In. discriminate.
Qed.

(** With distinct dates an ascending frame is strictly ascending. *)
Lemma ascending_distinct_strict (rows : list (Row num)) :
  ascending rows -> NoDup (map date rows) -> strictly_ascending rows.
Proof.
  unfold strictly_ascending.
  induction 1 as [| x l Hs IH Hall]; simpl; intros Hnd; [constructor |].
  inversion Hnd as [| ? ? Hnotin Hnd']; subst.
  constructor; [now apply IH |].
  apply Forall_forall. intros y Hy.
  eapply Forall_forall in Hall; [| exact Hy].
  unfold date_lt_rows, date_le_rows, date_ltb in *.
  apply negb_true_iff. apply not_true_iff_false. intros E.
  apply Hnotin. rewrite (date_leb_antisym _ _ Hall E). now apply in_map.
Qed.

(** Two strictly ascending frames with the same rows are the same frame. *)
Lemma strictly_ascending_unique (l1 l2 : list (Row num)) :
  strictly_ascending l1 -> strictly_ascending l2 ->
  Permutation l1 l2 -> l1 = l2.
Proof.
  unfold strictly_ascending. intros H1. revert l2.
  induction H1 as [| x l1 Hs1 IH Hall1]; intros l2 H2 HP.
  - apply Permutation_nil in HP. now subst.
  - destruct H2 as [| y l2 Hs2 Hall2].
    + symmetry in HP. apply Permutation_nil in HP. discriminate.
    + assert (x = y) as ->.
      { assert (Hx : In x (y :: l2))
          by (eapply Permutation_in; [exact HP | now left]).
        assert (Hy : In y (x :: l1))
          by (eapply Permutation_in; [symmetry; exact HP | now left]).
        destruct Hx as [-> | Hx]; [reflexivity |].
        destruct Hy as [-> | Hy]; [reflexivity |].
        exfalso.
        eapply Forall_forall in Hall1; [| exact Hy].
        eapply Forall_forall in Hall2; [| exact Hx].
        exact (date_ltb_asym _ _ Hall1 Hall2). }
      f_equal. apply IH; [assumption |].
      eapply Permutation_cons_inv. exact HP.
Qed.

End Frames.

(** ** The function as the composition of its stages *)

Section Stages.

Context {num : Type} {F : Float64 num}.

Lemma calculate_z_score_3yr_stages (price nav : list (PricePoint num))
    (current_date : Date) :
  calculate_z_score_3yr price nav current_date =
  option_map score_window (select_window (aligned price nav) current_date).
Proof.
  unfold calculate_z_score_3yr, aligned.
  destruct price as [| p price]; [reflexivity |].
  destruct nav as [| n nav].
  - rewrite merge_nil_r. reflexivity.
  - cbv beta iota delta [empty orb].
    destruct (filter both_positive (merge (p :: price) (n :: nav)))
      as [| r rows]; [reflexivity |].
    unfold select_window.
    destruct (filter _ (sort_values (r :: rows))) as [| r0 rest];
      [reflexivity |].
    unfold option_map, score_window; cbn [w_rows w_start w_end].
    destruct (length _ <? 252)%nat; [reflexivity |].
    destruct (feqb _ _); reflexivity.
Qed.

Lemma aligned_nonempty_inputs (price nav : list (PricePoint num)) :
  aligned price nav <> [] -> price <> [] /\ nav <> [].
Proof.
  intros H. split; intros ->; apply H; unfold aligned.
  - reflexivity.
  - now rewrite merge_nil_r.
Qed.

Lemma aligned_ascending (price nav : list (PricePoint num)) :
  ascending (aligned price nav).
Proof. apply sort_values_ascending. Qed.

Lemma aligned_Permutation (price nav : list (PricePoint num)) :
  Permutation (aligned price nav) (filter both_positive (merge price nav)).
Proof. apply sort_values_Permutation. Qed.

Lemma in_aligned (price nav : list (PricePoint num)) (r : Row num) :
  In r (aligned price nav) <->
  In r (merge price nav) /\ both_positive r = true.
Proof.
  rewrite <- filter_In. split; apply Permutation_in;
    [| symmetry]; apply aligned_Permutation.
Qed.

(** What the selector returns, in terms of the frame it was given. *)
Lemma select_window_inv (al : list (Row num)) (current_date : Date)
    (w : Window num) :
  select_window al current_date = Some w ->
  (exists r, In r al /\ date r = w_end w) /\
  date_leb (w_end w) current_date = true /\
  (forall r, In r al -> date_leb (date r) current_date = true ->
             date_leb (date r) (w_end w) = true) /\
  w_start w = sub_DateOffset_years (w_end w) 3 /\
  w_rows w = filter (in_window (w_start w) (w_end w)) al.
Proof.
  unfold select_window.
  set (before := fun r : Row num => date_leb (date r) current_date).
  destruct (filter before al) as [| r0 rest] eqn:Eav; [discriminate |].
  intros [= <-]; cbn [w_start w_end w_rows].
  set (e := series_max (date r0) (map date rest)).
  assert (Hin : exists r, In r (r0 :: rest) /\ date r = e).
  { pose proof (series_max_in (map date rest) (date r0)) as Hm.
    fold e in Hm. change (In e (map date (r0 :: rest))) in Hm.
    apply in_map_iff in Hm as (r & E & Hr). eauto. }
  assert (Have : forall r, In r (r0 :: rest) <-> In r al /\ before r = true)
    by (intros r; rewrite <- Eav; apply filter_In).
  assert (Hle : date_leb e current_date = true).
  { destruct Hin as (r & Hr & <-). now apply Have in Hr. }
  repeat split.
  - destruct Hin as (r & Hr & E). exists r. split; [| exact E].
    now apply Have in Hr.
  - exact Hle.
  - intros r Hr Hb. apply series_max_ge.
    change (In (date r) (map date (r0 :: rest))). apply in_map.
    apply Have. auto.
  - change (filter (in_window (sub_DateOffset_years e 3) e) (r0 :: rest) =
            filter (in_window (sub_DateOffset_years e 3) e) al).
    rewrite <- Eav, filter_filter_bool. apply filter_ext_in.
    intros r _. unfold in_window, before.
    destruct (date_leb (date r) e) eqn:E; [| now rewrite !andb_false_r].
    now rewrite (date_leb_trans _ _ _ E Hle).
Qed.

(** The selected window is never empty, and on an ascending frame its last
    row is the one dated at the window's end. *)
Lemma select_window_last (al : list (Row num)) (current_date : Date)
    (w : Window num) (r0 : Row num) :
  ascending al ->
  select_window al current_date = Some w ->
  w_rows w <> [] /\ date (last (w_rows w) r0) = w_end w.
Proof.
  intros Hasc Hsel.
  destruct (select_window_inv _ _ Hsel) as ((re & Hre & Ee) & _ & _ & Es & Er).
  assert (Hin : In re (w_rows w)).
  { rewrite Er. apply filter_In. split; [assumption |].
    unfold in_window. rewrite Ee, Es, sub_DateOffset_years_before.
    apply date_leb_refl. }
  assert (Hne : w_rows w <> []) by (intros E; rewrite E in Hin; destruct Hin).
  split; [exact Hne |].
  apply date_leb_antisym.
  - pose proof (last_In r0 Hne) as Hl. rewrite Er in Hl at 2.
    apply filter_In in Hl as [_ Hl]. unfold in_window in Hl.
    now apply andb_true_iff in Hl.
  - rewrite <- Ee. apply ascending_last_ge; [| exact Hin].
    rewrite Er. now apply filter_StronglySorted.
Qed.

(** The result of an accepted window, field by field. *)
Lemma score_window_accepted (w : Window num) :
  (252 <= length (w_rows w))%nat ->
  let pds := map prem_disc (w_rows w) in
  score_window w =
  active_result
    (if feqb (population_stddev pds) (of_int 0) then of_int 0
     else fdiv (fsub (last pds (of_int 0)) (mean pds)) (population_stddev pds))
    (last pds (of_int 0)) (mean pds) (population_stddev pds)
    (length (w_rows w)) (w_start w) (w_end w).
Proof.
  intros Hlen pds. unfold score_window.
  destruct (Nat.ltb_spec (length (w_rows w)) 252) as [Hlt | _]; [lia |].
  unfold population_stddev, population_variance. fold pds.
  replace (length pds) with (length (w_rows w))
    by (unfold pds; now rewrite length_map).
  destruct (feqb _ _); reflexivity.
Qed.

End Stages.

(** ** Summation *)

Section Summation.

Context {num : Type} {F : Float64 num}.

Lemma pairwise_sum_more_fuel (fuel : nat) (a : list num) :
  (length a <= fuel)%nat ->
  pairwise_sum (S fuel) a = pairwise_sum fuel a.
Proof.
  revert a. induction fuel as [| fuel IH]; intros a Hlen.
  - destruct a; [reflexivity | simpl in Hlen; lia].
  - cbn [pairwise_sum].
    destruct (Nat.ltb_spec 128 (length a)) as [Hbig | _]; [| reflexivity].
    set (h := (length a / 2)%nat).
    assert (Hh1 : (64 <= h)%nat)
      by (apply (Nat.Div0.div_le_mono 128 (length a) 2); lia).
    assert (Hh2 : (h < length a)%nat) by (apply Nat.div_lt; lia).
    assert (Hh3 : (h mod 8 < 8)%nat) by (apply Nat.mod_upper_bound; lia).
    f_equal; apply IH.
    + rewrite length_firstn. lia.
    + rewrite length_skipn. lia.
Qed.

(** The length of the array is fuel enough: more changes nothing. *)
Lemma pairwise_sum_fuel (fuel : nat) (a : list num) :
  (length a <= fuel)%nat ->
  pairwise_sum fuel a = pairwise_sum (length a) a.
Proof.
  intros Hlen.
  replace fuel with ((fuel - length a) + length a)%nat by lia.
  induction (fuel - length a)%nat as [| k IH]; [reflexivity |].
  cbn [Nat.add]. rewrite pairwise_sum_more_fuel by lia. exact IH.
Qed.

Section Exact.

Hypothesis exact : exact_arithmetic.

Let add_assoc := proj1 exact.
Let add_comm := proj1 (proj2 exact).
Let add_0_l := proj1 (proj2 (proj2 exact)).
Let no_nan := proj2 (proj2 (proj2 exact)).

Lemma add_0_r (x : num) : fadd x (of_int 0) = x.
Proof. rewrite add_comm. apply add_0_l. Qed.

Lemma add_interchange (a b c d : num) :
  fadd (fadd a b) (fadd c d) = fadd (fadd a c) (fadd b d).
Proof.
  rewrite <- !add_assoc. f_equal.
  rewrite !add_assoc. f_equal. apply add_comm.
Qed.

Lemma sigma_app (l1 l2 : list num) :
  sigma (l1 ++ l2) = fadd (sigma l1) (sigma l2).
Proof.
  induction l1 as [| x l1 IH]; simpl.
  - now rewrite add_0_l.
  - fold (sigma (l1 ++ l2)). fold (sigma l1).
    now rewrite IH, add_assoc.
Qed.

Lemma fold_left_sigma (l : list num) (acc : num) :
  fold_left fadd l acc = fadd acc (sigma l).
Proof.
  revert acc. induction l as [| x l IH]; intros acc; simpl.
  - now rewrite add_0_r.
  - fold (sigma l). now rewrite IH, add_assoc.
Qed.

Lemma unrolled_sum_sigma (a : list num) :
  forall r0 r1 r2 r3 r4 r5 r6 r7,
    unrolled_sum r0 r1 r2 r3 r4 r5 r6 r7 a =
    fadd (fadd (fadd (fadd r0 r1) (fadd r2 r3))
               (fadd (fadd r4 r5) (fadd r6 r7)))
         (sigma a).
Proof.
  assert (H : forall n a, (length a <= n)%nat ->
            forall r0 r1 r2 r3 r4 r5 r6 r7,
              unrolled_sum r0 r1 r2 r3 r4 r5 r6 r7 a =
              fadd (fadd (fadd (fadd r0 r1) (fadd r2 r3))
                         (fadd (fadd r4 r5) (fadd r6 r7)))
                   (sigma a)).
  { clear a. induction n as [| n IH]; intros a Hlen r0 r1 r2 r3 r4 r5 r6 r7.
    - destruct a; [| simpl in Hlen; lia]. simpl. now rewrite add_0_r.
    - destruct a as [| x0 [| x1 [| x2 [| x3 [| x4 [| x5 [| x6 [| x7 a']]]]]]]];
        try apply fold_left_sigma.
      cbn [unrolled_sum]. rewrite IH by (simpl in Hlen; lia).
      cbn [sigma fold_right]. fold (sigma a'). generalize (sigma a') as s.
      intros s.
      rewrite (add_interchange r0 x0 r1 x1), (add_interchange r2 x2 r3 x3),
        (add_interchange r4 x4 r5 x5), (add_interchange r6 x6 r7 x7).
      rewrite (add_interchange (fadd r0 r1) (fadd x0 x1)),
        (add_interchange (fadd r4 r5) (fadd x4 x5)).
      rewrite (add_interchange (fadd (fadd r0 r1) (fadd r2 r3))).
      rewrite <- (add_assoc (fadd (fadd (fadd r0 r1) (fadd r2 r3))
                                 (fadd (fadd r4 r5) (fadd r6 r7)))).
      f_equal. now rewrite <- !add_assoc. }
  intros. now apply (H (length a)).
Qed.

Lemma block_sum_sigma (a : list num) : block_sum a = sigma a.
Proof.
  destruct a as [| x0 [| x1 [| x2 [| x3 [| x4 [| x5 [| x6 [| x7 a']]]]]]]];
    try (unfold block_sum; rewrite fold_left_sigma; apply add_0_l).
  unfold block_sum. rewrite unrolled_sum_sigma.
  cbn [sigma fold_right]. fold (sigma a'). now rewrite <- !add_assoc.
Qed.

Lemma pairwise_sum_sigma (fuel : nat) (a : list num) :
  pairwise_sum fuel a = sigma a.
Proof.
  revert a. induction fuel as [| fuel IH]; intros a; cbn [pairwise_sum].
  - apply block_sum_sigma.
  - destruct (128 <? length a)%nat; [| apply block_sum_sigma].
    rewrite !IH, <- sigma_app. now rewrite firstn_skipn.
Qed.

(** In an exact arithmetic the column sum is the textbook sum. *)
Lemma sum_sigma (xs : list num) : sum xs = sigma xs.
Proof.
  unfold sum. rewrite pairwise_sum_sigma, add_0_l. f_equal.
  rewrite <- (map_id xs) at 2. apply map_ext.
  intros x. now rewrite no_nan.
Qed.

(** And the column mean is the textbook sum over the number of cells. *)
Lemma mean_sigma (xs : list num) :
  xs <> [] -> mean xs = fdiv (sigma xs) (of_int (Z.of_nat (length xs))).
Proof.
  intros Hne. unfold mean.
  rewrite (filter_all (fun x => negb (fisnan x)) xs)
    by (intros x _; now rewrite no_nan).
  destruct xs as [| x xs]; [congruence |].
  cbn [length Nat.eqb]. now rewrite sum_sigma.
Qed.

End Exact.

End Summation.

(** ** The statistics of an accepted window *)

Section Statistics.

Context {num : Type} {F : Float64 num}.

Lemma aligned_is_aligned_frame (price nav : list (PricePoint num)) :
  is_aligned_frame price nav (aligned price nav).
Proof. split; [apply aligned_Permutation | apply aligned_ascending]. Qed.

Lemma calculate_z_score_3yr_result_on (price nav : list (PricePoint num))
    (current_date : Date) :
  calculate_z_score_3yr price nav current_date =
  result_on (aligned price nav) current_date.
Proof. apply calculate_z_score_3yr_stages. Qed.



(** C4. If the selected window has fewer than 252 observations the result is
    the 'insufficient_data' dict with the actual count and the threshold 252,
    and nothing else; with 252 observations or more the status is
    'active'. *)
Theorem minimum_size_policy (price nav : list (PricePoint num))
    (current_date : Date) (w : Window num) :
  select_window (aligned price nav) current_date = Some w ->
  ((length (w_rows w) < 252)%nat ->
   calculate_z_score_3yr price nav current_date =
   Some [ ("status", VStr "insufficient_data");
          ("data_points", VInt (Z.of_nat (length (w_rows w))));
          ("required", VInt 252) ]%string) /\
  ((252 <= length (w_rows w))%nat ->
   exists r,
     calculate_z_score_3yr price nav current_date = Some r /\
     lookup "status" r = Some (VStr "active")).
Proof.
  intros Hsel. rewrite calculate_z_score_3yr_stages, Hsel. split.
  - intros Hlt. simpl. unfold score_window.
    destruct (Nat.ltb_spec (length (w_rows w)) 252); [reflexivity | lia].
  - intros Hlen. exists (score_window w). split; [reflexivity |].
    now rewrite (score_window_accepted w Hlen).
Qed.


End Statistics.

(** ** Alignment and window selection *)

Section Selection.

Context {num : Type} {F : Float64 num}.

(** C3, amended. For every frame and as-of date, the selector takes as end
    the greatest date of the frame not after the as-of date, and as start the
    end moved three calendar years back: same month, and the same day
    clipped to the length of that month, so that the day is kept for every
    valid date but a 29 February, which maps to 28 February.  The window is
    exactly the rows of the frame dated from start to end, in frame order;
    none of them is dated after the as-of date or before the start. *)
Theorem window_selection_bounds (al : list (Row num)) (current_date : Date)
    (w : Window num) :
  select_window al current_date = Some w ->
  let e := w_end w in
  ((exists r, In r al /\ date r = e) /\
   date_leb e current_date = true /\
   (forall r, In r al -> date_leb (date r) current_date = true ->
              date_leb (date r) e = true)) /\
  w_start w =
    mkDate (year e - 3) (month e)
           (Z.min (day e) (days_in_month (year e - 3) (month e))) /\
  (valid_date e = true -> ~ (month e = 2%Z /\ day e = 29%Z) ->
   same_month_day_3y_earlier w) /\
  w_rows w =
    filter (fun r => date_leb (w_start w) (date r) && date_leb (date r) e)
           al /\
  (forall r, In r (w_rows w) ->
     date_leb (date r) current_date = true /\
     date_leb (w_start w) (date r) = true /\
     date_leb (date r) e = true).
Proof.
  intros Hsel e.
  destruct (select_window_inv _ _ Hsel) as (Hex & Hle & Hmax & Es & Er).
  fold e in Hex, Hle, Hmax, Es, Er.
  split; [auto |]. split; [exact Es |]. split; [| split; [exact Er |]].
  - intros Hv Hfeb. unfold same_month_day_3y_earlier. fold e.
    rewrite <- (sub_DateOffset_years_day e Hv Hfeb), Es. reflexivity.
  - intros r Hr. rewrite Er in Hr. apply filter_In in Hr as [_ Hr].
    unfold in_window in Hr. apply andb_true_iff in Hr as [Hs He].
    repeat split; try assumption.
    eapply date_leb_trans; eassumption.
Qed.

(** C6. Every row of the aligned frame joins one fund record and one NAV
    record carrying the very same date, and both of its closes compare
    greater than zero; the rows of every window selected from the frame are
    rows of the frame, so the same holds downstream. *)
Theorem aligned_rows_joined_and_positive (price nav : list (PricePoint num))
    (r : Row num) :
  In r (aligned price nav) ->
  (exists p n,
     In p price /\ In n nav /\
     pp_date p = date r /\ pp_date n = date r /\
     pp_close p = close_price r /\ pp_close n = close_nav r) /\
  fgtb (close_price r) (of_int 0) = true /\
  fgtb (close_nav r) (of_int 0) = true /\
  (forall current_date w,
     select_window (aligned price nav) current_date = Some w ->
     Forall (fun o => fgtb (close_price o) (of_int 0) = true /\
                      fgtb (close_nav o) (of_int 0) = true)
            (w_rows w)).
Proof.
  intros Hr. apply in_aligned in Hr as [Hm Hpos].
  apply in_merge in Hm as (p & n & Hp & Hn & E & ->).
  unfold both_positive in Hpos. apply andb_true_iff in Hpos as [H1 H2].
  split; [exists p, n; simpl; repeat split; congruence |].
  split; [exact H1 |]. split; [exact H2 |].
  intros d w Hsel.
  destruct (select_window_inv _ _ Hsel) as (_ & _ & _ & _ & Er).
  apply Forall_forall. intros o Ho. rewrite Er in Ho.
  apply filter_In in Ho as [Ho _]. apply in_aligned in Ho as [_ Ho].
  unfold both_positive in Ho. now apply andb_true_iff in Ho.
Qed.

(** C7. For series with distinct dates, the aligned frame is sorted
    ascending by date, and permuting either input leaves it unchanged. *)
Theorem aligned_sorted_and_order_insensitive
    (price price' nav nav' : list (PricePoint num)) :
  NoDup (map pp_date price) ->
  NoDup (map pp_date nav) ->
  Permutation price price' ->
  Permutation nav nav' ->
  ascending (aligned price nav) /\
  aligned price' nav' = aligned price nav.
Proof.
  intros Hp Hn Pp Pn. split; [apply aligned_ascending |].
  assert (Hstrict : forall ps ns,
             NoDup (map pp_date ps) -> NoDup (map pp_date ns) ->
             strictly_ascending (aligned ps ns)).
  { intros ps ns Hps Hns.
    apply ascending_distinct_strict; [apply aligned_ascending |].
    eapply Permutation_NoDup.
    - apply Permutation_map. symmetry. apply aligned_Permutation.
    - apply NoDup_map_filter. now apply merge_dates_distinct. }
  apply strictly_ascending_unique.
  - apply Hstrict.
    + exact (Permutation_NoDup (Permutation_map pp_date Pp) Hp).
    + exact (Permutation_NoDup (Permutation_map pp_date Pn) Hn).
  - now apply Hstrict.
  - rewrite !aligned_Permutation. apply Permutation_filter_bool.
    transitivity (merge price nav').
    + symmetry. now apply merge_Permutation_l.
    + symmetry. now apply merge_Permutation_r.
Qed.

(** C8. When either input series is empty, or no joined row has two positive
    closes, or no aligned row is dated on or before the as-of date, the
    function returns [None]. *)
Theorem no_data_returns_None (price nav : list (PricePoint num))
    (current_date : Date) :
  price = [] \/ nav = [] \/
  filter both_positive (merge price nav) = [] \/
  (forall r, In r (aligned price nav) ->
             date_leb (date r) current_date = false) ->
  calculate_z_score_3yr price nav current_date = None.
Proof.
  rewrite calculate_z_score_3yr_stages.
  intros [-> | [-> | [E | Hnone]]].
  - reflexivity.
  - unfold aligned. now rewrite merge_nil_r.
  - unfold aligned. now rewrite E.
  - unfold select_window. now rewrite (filter_none _ _ Hnone).
Qed.

(** C10. A result whose status is 'insufficient_data' has exactly the keys
    'status', 'data_points' and 'required', the count being that of the
    selected window (below 252) and the threshold 252; it has none of the
    statistics or window-bound keys.  A result whose status is 'active' has
    all of them. *)
Theorem insufficient_result_shape (price nav : list (PricePoint num))
    (current_date : Date) (r : dict num) :
  calculate_z_score_3yr price nav current_date = Some r ->
  (lookup "status" r = Some (VStr "insufficient_data") ->
   keys r = ["status"; "data_points"; "required"]%string /\
   (exists w,
      select_window (aligned price nav) current_date = Some w /\
      (length (w_rows w) < 252)%nat /\
      lookup "data_points" r = Some (VInt (Z.of_nat (length (w_rows w))))) /\
   lookup "required" r = Some (VInt 252) /\
   Forall (fun k => lookup k r = None) statistics_keys) /\
  (lookup "status" r = Some (VStr "active") ->
   keys r = active_keys /\
   Forall (fun k => lookup k r <> None) statistics_keys).
Proof.
  rewrite calculate_z_score_3yr_stages.
  destruct (select_window (aligned price nav) current_date) as [w |] eqn:Hsel;
    [| discriminate].
  intros [= <-]. unfold score_window.
  destruct (Nat.ltb_spec (length (w_rows w)) 252) as [Hlt | Hge].
  - split; [| discriminate]. intros _.
    split; [reflexivity |]. split; [exists w; auto |].
    split; [reflexivity |]. repeat constructor.
  - destruct (feqb _ _); (split; [discriminate |]); intros _;
      (split; [reflexivity |]); repeat constructor; discriminate.
Qed.

End Selection.

(** ** The function on concrete series (IEEE binary64) *)

(** Dividing by n and dividing by n - 1 give different deviations. *)
Example population_is_not_sample :
  population_stddev [1; 3]%float = 1%float /\
  sample_stddev [1; 3]%float = PrimFloat.sqrt 2.
Proof. split; vm_compute; reflexivity. Qed.

(** Fund and NAV flat at 10.00 over 252 observations. *)
Example flat_series_scores_zero :
  calculate_z_score_3yr flat_prices flat_navs as_of = Some flat_result.
Proof. vm_compute. reflexivity. Qed.

(** 251 matching observations are not enough. *)
Example short_series_insufficient :
  calculate_z_score_3yr flat_prices short_navs as_of = Some short_result.
Proof. vm_compute. reflexivity. Qed.

(** The discount that changes to a premium, at binary64:
    z_score 2.2360679774997894, avg_pd -0.033333333333333361,
    stddev_pd 0.037267799624996531. *)
Example two_level_series_scores :
  calculate_z_score_3yr two_level_prices flat_navs as_of =
  Some [ ("z_score", VFloat (0x1.1e3779b97f4a7p+1)%float);
         ("current_pd", VFloat (0x1.99999999999a0p-5)%float);
         ("current_pd_pct", VFloat (0x1.4000000000005p+2)%float);
         ("avg_pd", VFloat (-0x1.1111111111115p-5)%float);
         ("avg_pd_pct", VFloat (-0x1.aaaaaaaaaaab1p+1)%float);
         ("stddev_pd", VFloat (0x1.314c3d92a9e96p-5)%float);
         ("stddev_pd_pct", VFloat (0x1.dd072035297cap+1)%float);
         ("data_points", VInt 252);
         ("start_date", VStr "2020-12-21");
         ("end_date", VStr "2023-12-21");
         ("status", VStr "active") ]%string.
Proof. vm_compute. reflexivity. Qed.

(** C3, as stated, fails on a window that ends on a 29 February: three years
    before 2024-02-29 the selector starts the window on 2021-02-28, which is
    not the same day of the month, and the row of that date is in the
    window. *)
Lemma leap_day_window_start_is_clipped :
  select_window (aligned leap_series leap_series) leap_day = Some leap_window /\
  w_end leap_window = mkDate 2024 2 29 /\
  w_start leap_window = mkDate 2021 2 28 /\
  ~ same_month_day_3y_earlier leap_window.
Proof.
  split; [vm_compute; reflexivity |].
  split; [reflexivity |]. split; [reflexivity |].
  unfold same_month_day_3y_earlier. simpl. discriminate.
Qed.


Lemma exact_integers_exact : exact_arithmetic (F := exact_integers).
Proof. repeat split; intros; simpl; lia. Qed.



Lemma window_selection_bounds_witness :
  select_window (aligned leap_series leap_series) leap_day = Some leap_window /\
  w_start leap_window = mkDate 2021 2 28 /\
  select_window (aligned flat_prices flat_navs) as_of = Some flat_window /\
  same_month_day_3y_earlier flat_window.
Proof.
  assert (H1 : select_window (aligned leap_series leap_series) leap_day
               = Some leap_window) by (vm_compute; reflexivity).
  assert (H2 : select_window (aligned flat_prices flat_navs) as_of
               = Some flat_window) by (vm_compute; reflexivity).
  split; [exact H1 |]. split; [| split; [exact H2 |]].
  - exact (proj1 (proj2 (window_selection_bounds _ leap_day H1))).
  - apply (proj1 (proj2 (proj2 (window_selection_bounds _ as_of H2)))).
    + reflexivity.
    + simpl. intros [E _]. discriminate.
Defined.

Lemma minimum_size_policy_witness :
  (select_window (aligned flat_prices short_navs) as_of = Some short_window /\
   (length (w_rows short_window) < 252)%nat /\
   calculate_z_score_3yr flat_prices short_navs as_of
   = Some [ ("status", VStr "insufficient_data");
            ("data_points", VInt (Z.of_nat (length (w_rows short_window))));
            ("required", VInt 252) ]%string) /\
  (select_window (aligned flat_prices flat_navs) as_of = Some flat_window /\
   (252 <= length (w_rows flat_window))%nat /\
   exists r,
     calculate_z_score_3yr flat_prices flat_navs as_of = Some r /\
     lookup "status" r = Some (VStr "active")).
Proof.
  assert (H1 : select_window (aligned flat_prices short_navs) as_of
               = Some short_window) by (vm_compute; reflexivity).
  assert (H2 : (length (w_rows short_window) < 252)%nat)
    by (vm_compute; lia).
  assert (H3 : select_window (aligned flat_prices flat_navs) as_of
               = Some flat_window) by (vm_compute; reflexivity).
  assert (H4 : (252 <= length (w_rows flat_window))%nat)
    by (vm_compute; lia).
  split; (split; [assumption |]); (split; [assumption |]).
  - exact (proj1 (minimum_size_policy flat_prices short_navs as_of H1) H2).
  - exact (proj2 (minimum_size_policy flat_prices flat_navs as_of H3) H4).
Defined.


Lemma aligned_rows_joined_and_positive_witness :
  In first_flat_row (aligned flat_prices flat_navs) /\
  fgtb (close_price first_flat_row) (of_int 0) = true /\
  fgtb (close_nav first_flat_row) (of_int 0) = true.
Proof.
  assert (H : In first_flat_row (aligned flat_prices flat_navs))
    by (vm_compute; left; reflexivity).
  split; [exact H |].
  destruct (aligned_rows_joined_and_positive flat_prices flat_navs _ H)
    as (_ & Hp & Hn & _).
  split; assumption.
Defined.

Lemma aligned_sorted_and_order_insensitive_witness :
  NoDup (map pp_date unordered_prices) /\
  NoDup (map pp_date ordered_navs) /\
  Permutation unordered_prices (rev unordered_prices) /\
  Permutation ordered_navs (rev ordered_navs) /\
  aligned (rev unordered_prices) (rev ordered_navs)
  = aligned unordered_prices ordered_navs.
Proof.
  assert (H1 : NoDup (map pp_date unordered_prices)).
  { simpl. repeat constructor; simpl; intuition discriminate. }
  assert (H2 : NoDup (map pp_date ordered_navs)).
  { simpl. repeat constructor; simpl; intuition discriminate. }
  pose proof (Permutation_rev unordered_prices) as H3.
  pose proof (Permutation_rev ordered_navs) as H4.
  repeat (split; [assumption |]).
  exact (proj2 (aligned_sorted_and_order_insensitive H1 H2 H3 H4)).
Defined.

Lemma no_data_returns_None_witness :
  (forall r, In r (aligned leap_series leap_series) ->
             date_leb (date r) (mkDate 2020 1 1) = false) /\
  calculate_z_score_3yr leap_series leap_series (mkDate 2020 1 1) = None.
Proof.
  assert (H : forall r, In r (aligned leap_series leap_series) ->
                        date_leb (date r) (mkDate 2020 1 1) = false).
  { intros r Hr. vm_compute in Hr.
    destruct Hr as [<- | [<- | []]]; reflexivity. }
  split; [exact H |].
  apply no_data_returns_None. right. right. right. exact H.
Defined.

Lemma insufficient_result_shape_witness :
  (calculate_z_score_3yr flat_prices short_navs as_of = Some short_result /\
   lookup "status" short_result = Some (VStr "insufficient_data") /\
   keys short_result = ["status"; "data_points"; "required"]%string /\
   Forall (fun k => lookup k short_result = None) statistics_keys) /\
  (calculate_z_score_3yr flat_prices flat_navs as_of = Some flat_result /\
   lookup "status" flat_result = Some (VStr "active") /\
   keys flat_result = active_keys).
Proof.
  assert (H1 : calculate_z_score_3yr flat_prices short_navs as_of
               = Some short_result) by (vm_compute; reflexivity).
  assert (H2 : lookup "status" short_result = Some (VStr "insufficient_data"))
    by reflexivity.
  assert (H3 : calculate_z_score_3yr flat_prices flat_navs as_of
               = Some flat_result) by (vm_compute; reflexivity).
  assert (H4 : lookup "status" flat_result = Some (VStr "active"))
    by reflexivity.
  split; (split; [assumption |]); (split; [assumption |]).
  - destruct (proj1 (insufficient_result_shape _ _ _ H1) H2)
      as (Hk & _ & _ & Hnone).
    split; assumption.
  - exact (proj1 (proj2 (insufficient_result_shape _ _ _ H3) H4)).
Defined.

(** ** Which records the result depends on *)

Section Influence.

Context {num : Type} {F : Float64 num}.

Lemma insert_by_date_front (r : Row num) (rows : list (Row num)) :
  Forall (date_le_rows r) rows -> insert_by_date r rows = r :: rows.
Proof.
  destruct rows as [| r' rows]; [reflexivity |].
  intros H. apply Forall_inv in H. unfold date_le_rows in H.
  simpl. now rewrite H.
Qed.

Lemma filter_insert_by_date (f : Row num -> bool) (r : Row num)
    (rows : list (Row num)) :
  ascending rows ->
  filter f (insert_by_date r rows) =
  if f r then insert_by_date r (filter f rows) else filter f rows.
Proof.
  induction 1 as [| r' rows Hs IH Hall]; cbn [insert_by_date].
  - simpl. destruct (f r); reflexivity.
  - destruct (date_leb (date r) (date r')) eqn:E.
    + change (filter f (r :: r' :: rows))
        with (if f r then r :: filter f (r' :: rows)
              else filter f (r' :: rows)).
      destruct (f r); [| reflexivity].
      symmetry. apply insert_by_date_front.
      assert (Hge : Forall (date_le_rows r) (r' :: rows)).
      { constructor; [exact E |].
        eapply Forall_impl; [| exact Hall].
        intros x Hx. unfold date_le_rows in *.
        eapply date_leb_trans; eassumption. }
      apply Forall_forall. intros x Hx.
      eapply Forall_forall in Hge; [exact Hge |].
      apply filter_In in Hx. tauto.
    + cbn [filter]. rewrite IH.
      destruct (f r'), (f r); simpl; rewrite ?E; reflexivity.
Qed.

(** Masking rows commutes with sorting them. *)
Lemma filter_sort_values (f : Row num -> bool) (rows : list (Row num)) :
  filter f (sort_values rows) = sort_values (filter f rows).
Proof.
  induction rows as [| r rows IH]; [reflexivity |].
  simpl. rewrite filter_insert_by_date by apply sort_values_ascending.
  rewrite IH. destruct (f r); reflexivity.
Qed.

Lemma filter_comm (A : Type) (f g : A -> bool) (l : list A) :
  filter f (filter g l) = filter g (filter f l).
Proof.
  rewrite !filter_filter_bool. apply filter_ext.
  intros x. apply andb_comm.
Qed.

Lemma filter_idem (A : Type) (f : A -> bool) (l : list A) :
  filter f (filter f l) = filter f l.
Proof.
  rewrite filter_filter_bool. apply filter_ext.
  intros x. now destruct (f x).
Qed.

(** Masking both inputs of the merge masks its rows. *)
Lemma merge_matches_filter (fp fn : PricePoint num -> bool)
    (x : PricePoint num) (nav : list (PricePoint num)) :
  let joined := fun n => mkRow (pp_date x) (pp_close x) (pp_close n) in
  let keep := fun r =>
    fp (mkPoint (date r) (close_price r))
    && fn (mkPoint (date r) (close_nav r)) in
  filter keep
    (map joined (filter (fun n => date_eqb (pp_date x) (pp_date n)) nav)) =
  if fp x then
    map joined
      (filter (fun n => date_eqb (pp_date x) (pp_date n)) (filter fn nav))
  else [].
Proof.
  intros joined keep. destruct x as [dx cx]. simpl in *.
  induction nav as [| [dn cn] nav IH]; simpl.
  - now destruct (fp _).
  - destruct (date_eqb dx dn) eqn:E.
    + apply date_eqb_eq in E. subst dn. simpl.
      unfold keep at 1. simpl. rewrite IH.
      destruct (fp (mkPoint dx cx)), (fn (mkPoint dx cn)); simpl;
        rewrite ?(proj2 (date_eqb_eq dx dx) eq_refl); reflexivity.
    + rewrite IH. destruct (fp (mkPoint dx cx)); [| reflexivity].
      destruct (fn (mkPoint dn cn)); simpl; rewrite ?E; reflexivity.
Qed.

Lemma merge_filter (fp fn : PricePoint num -> bool)
    (price nav : list (PricePoint num)) :
  merge (filter fp price) (filter fn nav) =
  filter (fun r => fp (mkPoint (date r) (close_price r))
                   && fn (mkPoint (date r) (close_nav r)))
         (merge price nav).
Proof.
  induction price as [| x price IH]; [reflexivity |].
  change (merge (x :: price) nav)
    with (map (fun n => mkRow (pp_date x) (pp_close x) (pp_close n))
              (filter (fun n => date_eqb (pp_date x) (pp_date n)) nav)
          ++ merge price nav).
  rewrite filter_app, merge_matches_filter, <- IH.
  simpl. destruct (fp x); reflexivity.
Qed.

(** Masking the aligned frame by date is aligning the masked inputs. *)
Lemma aligned_filter_dates (keep : Date -> bool)
    (price nav : list (PricePoint num)) :
  filter (fun r => keep (date r)) (aligned price nav) =
  aligned (filter (fun x => keep (pp_date x)) price)
          (filter (fun x => keep (pp_date x)) nav).
Proof.
  unfold aligned. rewrite filter_sort_values, filter_comm. f_equal. f_equal.
  rewrite merge_filter. apply filter_ext.
  intros r. simpl. now destruct (keep (date r)).
Qed.

(** Records that fail the positive-close mask can be dropped beforehand. *)
Lemma aligned_filter_positive (price nav : list (PricePoint num)) :
  aligned (filter (fun x => fgtb (pp_close x) (of_int 0)) price)
          (filter (fun x => fgtb (pp_close x) (of_int 0)) nav) =
  aligned price nav.
Proof.
  unfold aligned. f_equal. rewrite merge_filter.
  rewrite filter_filter_bool. apply filter_ext.
  intros r. unfold both_positive. simpl.
  now destruct (fgtb (close_price r) _ && fgtb (close_nav r) _).
Qed.

(** The selector reads only the rows on or before the as-of date. *)
Lemma select_window_available (al : list (Row num)) (current_date : Date) :
  select_window
    (filter (fun r => date_leb (date r) current_date) al) current_date =
  select_window al current_date.
Proof. unfold select_window. now rewrite filter_idem. Qed.

End Influence.

(** ** Properties of the result as a function of the series *)

Section Results.

Context {num : Type} {F : Float64 num}.

Lemma window_eta (w : Window num) :
  w = mkWindow (w_start w) (w_end w) (w_rows w).
Proof. now destruct w. Qed.

(** The selector finds the window whose end is the greatest available
    date. *)
Lemma select_window_intro (al : list (Row num)) (current_date e : Date) :
  (exists r, In r al /\ date r = e) ->
  date_leb e current_date = true ->
  (forall r, In r al -> date_leb (date r) current_date = true ->
             date_leb (date r) e = true) ->
  select_window al current_date =
  Some (mkWindow (sub_DateOffset_years e 3) e
          (filter (in_window (sub_DateOffset_years e 3) e) al)).
Proof.
  intros (re & Hre & Ee) Hle Hmax.
  destruct (select_window al current_date) as [w |] eqn:Hsel.
  - destruct (select_window_inv _ _ Hsel)
      as ((r' & Hr' & Er') & Hle' & Hmax' & Es & Er).
    assert (w_end w = e) as Hend.
    { apply date_leb_antisym.
      - rewrite <- Er'. apply Hmax; [assumption |]. now rewrite Er'.
      - rewrite <- Ee. apply Hmax'; [assumption |]. now rewrite Ee. }
    rewrite (window_eta w), Er, Es, Hend. reflexivity.
  - exfalso. unfold select_window in Hsel.
    assert (Hin : In re (filter (fun r => date_leb (date r) current_date) al))
      by (apply filter_In; split; [assumption | now rewrite Ee]).
    destruct (filter _ al); [destruct Hin | discriminate].
Qed.

Lemma select_window_None (al : list (Row num)) (current_date : Date) :
  select_window al current_date = None <->
  forall r, In r al -> date_leb (date r) current_date = false.
Proof.
  unfold select_window. split.
  - intros H r Hr.
    destruct (date_leb (date r) current_date) eqn:E; [| reflexivity].
    assert (Hin : In r (filter (fun r => date_leb (date r) current_date) al))
      by (apply filter_In; auto).
    destruct (filter _ al); [destruct Hin | discriminate].
  - intros H. now rewrite (filter_none _ _ H).
Qed.

Lemma length_merge_cons_r (price nav : list (PricePoint num))
    (y : PricePoint num) :
  length (merge price (y :: nav)) =
  (length (filter (fun x => date_eqb (pp_date x) (pp_date y)) price)
   + length (merge price nav))%nat.
Proof.
  unfold merge. induction price as [| x price IH]; [reflexivity |].
  cbn [flat_map]. rewrite !length_app, !length_map, IH. cbn [filter].
  destruct (date_eqb (pp_date x) (pp_date y)); simpl; lia.
Qed.

(** The join has as many rows whichever series is taken as the left one. *)
Lemma length_merge_sym (price nav : list (PricePoint num)) :
  length (merge price nav) = length (merge nav price).
Proof.
  induction price as [| x price IH]; simpl.
  - now rewrite merge_nil_r.
  - rewrite length_app, length_map, IH, length_merge_cons_r.
    f_equal. f_equal. apply filter_ext. intros n.
    destruct (date_eqb (pp_date x) (pp_date n)) eqn:E.
    + apply date_eqb_eq in E. symmetry. now apply date_eqb_eq.
    + apply not_true_iff_false in E. symmetry. apply not_true_iff_false.
      intros E'. apply E. apply date_eqb_eq in E'. now apply date_eqb_eq.
Qed.

Lemma length_merge_le (price nav : list (PricePoint num)) :
  NoDup (map pp_date nav) -> (length (merge price nav) <= length price)%nat.
Proof.
  intros Hn. induction price as [| x price IH]; simpl; [lia |].
  rewrite length_app, length_map.
  pose proof (@matches_at_most_one num nav (pp_date x) Hn). lia.
Qed.

Lemma length_filter_le (A : Type) (f : A -> bool) (l : list A) :
  (length (filter f l) <= length l)%nat.
Proof.
  induction l as [| x l IH]; simpl; [lia |]. destruct (f x); simpl; lia.
Qed.

Lemma length_aligned (price nav : list (PricePoint num)) :
  (length (aligned price nav) <= length (merge price nav))%nat.
Proof.
  rewrite (Permutation_length (aligned_Permutation price nav)).
  apply length_filter_le.
Qed.

(** Aligning permuted inputs with distinct dates gives the same frame. *)
Lemma aligned_of_permuted (price price' nav nav' : list (PricePoint num)) :
  NoDup (map pp_date price) -> NoDup (map pp_date nav) ->
  Permutation price price' -> Permutation nav nav' ->
  aligned price' nav' = aligned price nav.
Proof.
  intros Hp Hn Pp Pn.
  assert (Hp' : NoDup (map pp_date price'))
    by exact (Permutation_NoDup (Permutation_map pp_date Pp) Hp).
  assert (Hn' : NoDup (map pp_date nav'))
    by exact (Permutation_NoDup (Permutation_map pp_date Pn) Hn).
  assert (Hdistinct : forall ps ns,
             NoDup (map pp_date ps) -> NoDup (map pp_date ns) ->
             NoDup (map date (aligned ps ns))).
  { intros ps ns Hps Hns.
    eapply Permutation_NoDup;
      [apply Permutation_map; symmetry; apply aligned_Permutation |].
    apply NoDup_map_filter. now apply merge_dates_distinct. }
  apply strictly_ascending_unique.
  - apply ascending_distinct_strict; [apply aligned_ascending | auto].
  - apply ascending_distinct_strict; [apply aligned_ascending | auto].
  - rewrite !aligned_Permutation. apply Permutation_filter_bool.
    rewrite <- (merge_Permutation_l nav' Pp).
    symmetry. now apply merge_Permutation_r.
Qed.

(** X1. For series with distinct dates, the result does not depend on any
    record dated after the as-of date: dropping those records from both
    series beforehand gives the same result. *)
Theorem no_look_ahead (price nav : list (PricePoint num))
    (current_date : Date) :
  NoDup (map pp_date price) -> NoDup (map pp_date nav) ->
  calculate_z_score_3yr
    (filter (fun x => date_leb (pp_date x) current_date) price)
    (filter (fun x => date_leb (pp_date x) current_date) nav)
    current_date =
  calculate_z_score_3yr price nav current_date.
Proof.
  intros _ _. rewrite !calculate_z_score_3yr_stages.
  rewrite <- (aligned_filter_dates (fun t => date_leb t current_date)).
  now rewrite select_window_available.
Qed.

(** X2. For series with distinct dates, the result does not depend on any
    record whose close is not greater than zero: dropping those records from
    both series beforehand gives the same result. *)
Theorem nonpositive_closes_are_ignored (price nav : list (PricePoint num))
    (current_date : Date) :
  NoDup (map pp_date price) -> NoDup (map pp_date nav) ->
  calculate_z_score_3yr
    (filter (fun x => fgtb (pp_close x) (of_int 0)) price)
    (filter (fun x => fgtb (pp_close x) (of_int 0)) nav)
    current_date =
  calculate_z_score_3yr price nav current_date.
Proof.
  intros _ _. rewrite !calculate_z_score_3yr_stages.
  now rewrite aligned_filter_positive.
Qed.

(** X3. For series with distinct dates the whole result, not only the
    aligned frame, is the same for every ordering of either input. *)
Theorem result_insensitive_to_input_order
    (price price' nav nav' : list (PricePoint num)) (current_date : Date) :
  NoDup (map pp_date price) -> NoDup (map pp_date nav) ->
  Permutation price price' -> Permutation nav nav' ->
  calculate_z_score_3yr price' nav' current_date =
  calculate_z_score_3yr price nav current_date.
Proof.
  intros Hp Hn Pp Pn. rewrite !calculate_z_score_3yr_stages.
  now rewrite (aligned_of_permuted Hp Hn Pp Pn).
Qed.

(** X4. The function returns [None] exactly when no fund record and NAV
    record share a date on or before the as-of date with both closes
    greater than zero. *)
Theorem returns_None_iff (price nav : list (PricePoint num))
    (current_date : Date) :
  calculate_z_score_3yr price nav current_date = None <->
  (forall x y,
     In x price -> In y nav -> pp_date x = pp_date y ->
     fgtb (pp_close x) (of_int 0) = true ->
     fgtb (pp_close y) (of_int 0) = true ->
     date_leb (pp_date x) current_date = false).
Proof.
  rewrite calculate_z_score_3yr_stages.
  assert (Hopt : forall o : option (Window num),
             option_map score_window o = None <-> o = None)
    by (intros [w |]; simpl; split; congruence).
  rewrite Hopt, select_window_None. split.
  - intros H x y Hx Hy E Px Py.
    apply (H (mkRow (pp_date x) (pp_close x) (pp_close y))).
    apply in_aligned. split.
    + apply in_merge. exists x, y. auto.
    + unfold both_positive. simpl. now rewrite Px, Py.
  - intros H r Hr. apply in_aligned in Hr as [Hm Hpos].
    apply in_merge in Hm as (x & y & Hx & Hy & E & ->).
    unfold both_positive in Hpos. simpl in Hpos.
    apply andb_true_iff in Hpos as [Px Py]. simpl. eauto.
Qed.

(** X5. Every returned dict reports a [data_points] of at least 1; the count
    is at most the number of fund records when the NAV dates are distinct,
    and at most the number of NAV records when the fund dates are. *)
Theorem data_points_bounds (price nav : list (PricePoint num))
    (current_date : Date) (r : dict num) :
  calculate_z_score_3yr price nav current_date = Some r ->
  exists k : nat,
    lookup "data_points" r = Some (VInt (Z.of_nat k)) /\
    (1 <= k)%nat /\
    (NoDup (map pp_date nav) -> (k <= length price)%nat) /\
    (NoDup (map pp_date price) -> (k <= length nav)%nat).
Proof.
  rewrite calculate_z_score_3yr_stages.
  destruct (select_window (aligned price nav) current_date) as [w |] eqn:Hsel;
    [| discriminate].
  intros [= <-]. exists (length (w_rows w)).
  assert (Hone : (1 <= length (w_rows w))%nat).
  { destruct (w_rows w) as [| r0 rows] eqn:E; [| simpl; lia].
    destruct (@select_window_last num _ current_date w
                (mkRow current_date (of_int 0) (of_int 0))
                (aligned_ascending price nav) Hsel) as [Hne _].
    congruence. }
  assert (Hle : (length (w_rows w) <= length (merge price nav))%nat).
  { destruct (select_window_inv _ _ Hsel) as (_ & _ & _ & _ & Er).
    rewrite Er. etransitivity; [apply length_filter_le |].
    apply length_aligned. }
  split; [| split; [exact Hone | split]].
  - unfold score_window.
    destruct (length (w_rows w) <? 252)%nat; [reflexivity |].
    destruct (feqb _ _); reflexivity.
  - intros Hn. pose proof (@length_merge_le price nav Hn). lia.
  - intros Hp. rewrite length_merge_sym in Hle.
    pose proof (@length_merge_le nav price Hp). lia.
Qed.

(** X6. With distinct dates in both series, fewer than 252 records on either
    side never give a score: whatever is returned has status
    'insufficient_data' and no 'z_score'. *)
Theorem short_series_never_scored (price nav : list (PricePoint num))
    (current_date : Date) (r : dict num) :
  NoDup (map pp_date price) -> NoDup (map pp_date nav) ->
  (length price < 252)%nat \/ (length nav < 252)%nat ->
  calculate_z_score_3yr price nav current_date = Some r ->
  lookup "status" r = Some (VStr "insufficient_data") /\
  lookup "z_score" r = None.
Proof.
  intros Hp Hn Hshort Hr.
  rewrite calculate_z_score_3yr_stages in Hr.
  destruct (select_window (aligned price nav) current_date) as [w |] eqn:Hsel;
    [| discriminate].
  injection Hr as <-.
  assert (Hle : (length (w_rows w) <= length (merge price nav))%nat).
  { destruct (select_window_inv _ _ Hsel) as (_ & _ & _ & _ & Er).
    rewrite Er. etransitivity; [apply length_filter_le |].
    apply length_aligned. }
  pose proof (@length_merge_le price nav Hn) as H1.
  pose proof (@length_merge_le nav price Hp) as H2.
  rewrite <- length_merge_sym in H2.
  unfold score_window.
  destruct (Nat.ltb_spec (length (w_rows w)) 252); [| lia].
  split; reflexivity.
Qed.

(** X7. When no fund record is dated after the as-of date, a later as-of
    date gives the same result. *)
Theorem later_as_of_date_same_result (price nav : list (PricePoint num))
    (current_date later_date : Date) :
  (forall x, In x price -> date_leb (pp_date x) current_date = true) ->
  date_leb current_date later_date = true ->
  calculate_z_score_3yr price nav later_date =
  calculate_z_score_3yr price nav current_date.
Proof.
  intros Hall Hle. rewrite !calculate_z_score_3yr_stages. f_equal.
  assert (Hrows : forall r, In r (aligned price nav) ->
                            date_leb (date r) current_date = true).
  { intros r Hr. apply in_aligned in Hr as [Hm _].
    apply in_merge in Hm as (x & y & Hx & _ & _ & ->). simpl. auto. }
  unfold select_window.
  rewrite (filter_all _ _ Hrows), filter_all; [reflexivity |].
  intros r Hr. eapply date_leb_trans; [apply Hrows |]; eassumption.
Qed.

(** X8. For series with distinct dates, the result does not depend on any
    record dated before the start of the selected window: dropping those
    records from both series beforehand gives the same result. *)
Theorem records_before_window_are_ignored (price nav : list (PricePoint num))
    (current_date : Date) (w : Window num) :
  NoDup (map pp_date price) -> NoDup (map pp_date nav) ->
  select_window (aligned price nav) current_date = Some w ->
  calculate_z_score_3yr
    (filter (fun x => date_leb (w_start w) (pp_date x)) price)
    (filter (fun x => date_leb (w_start w) (pp_date x)) nav)
    current_date =
  calculate_z_score_3yr price nav current_date.
Proof.
  intros _ _ Hsel. rewrite !calculate_z_score_3yr_stages, Hsel. f_equal.
  rewrite <- (aligned_filter_dates (fun t => date_leb (w_start w) t)).
  destruct (select_window_inv _ _ Hsel)
    as ((re & Hre & Ee) & Hle & Hmax & Es & Er).
  set (kept := filter (fun r => date_leb (w_start w) (date r))
                      (aligned price nav)).
  assert (Hstart : date_leb (w_start w) (w_end w) = true)
    by (rewrite Es; apply sub_DateOffset_years_before).
  rewrite (@select_window_intro kept current_date (w_end w)).
  - rewrite <- Es. f_equal.
    transitivity (mkWindow (w_start w) (w_end w) (w_rows w));
      [| symmetry; apply window_eta].
    f_equal. rewrite Er. unfold kept. rewrite filter_filter_bool.
    apply filter_ext. intros r. unfold in_window.
    now destruct (date_leb (w_start w) (date r)).
  - exists re. split; [| exact Ee].
    apply filter_In. split; [assumption | now rewrite Ee].
  - exact Hle.
  - intros r Hr. apply filter_In in Hr as [Hr _]. now apply Hmax.
Qed.

End Results.

(** ** Storing the score *)

Section Storage.

Context {num : Type} {F : Float64 num}.

Lemma Forall2_same (A : Type) (R : A -> A -> Prop) (l : list A) :
  (forall x, R x x) -> Forall2 R l l.
Proof. intros H. induction l; constructor; auto. Qed.

Lemma update_etf_static_rows (z : option (value num))
    (s1 s2 key : string) (table : list (EtfRow num)) :
  Forall2 (row_kept_or_updated key) table
          (update_etf_static z s1 s2 key table).
Proof.
  induction table as [| row table IH]; simpl; constructor; [| exact IH].
  unfold row_kept_or_updated.
  destruct (String.eqb_spec (ticker row) key); simpl; tauto.
Qed.

Lemma update_etf_static_idem (z : option (value num))
    (s1 s2 key : string) (table : list (EtfRow num)) :
  update_etf_static z s1 s2 key (update_etf_static z s1 s2 key table) =
  update_etf_static z s1 s2 key table.
Proof.
  unfold update_etf_static. rewrite map_map. apply map_ext. intros row.
  destruct (String.eqb (ticker row) key) eqn:E; simpl; now rewrite E.
Qed.

Lemma update_etf_static_comm (z z' : option (value num))
    (s1 s2 s1' s2' key key' : string) (table : list (EtfRow num)) :
  key <> key' ->
  update_etf_static z s1 s2 key (update_etf_static z' s1' s2' key' table) =
  update_etf_static z' s1' s2' key' (update_etf_static z s1 s2 key table).
Proof.
  intros Hne. unfold update_etf_static. rewrite !map_map.
  apply map_ext. intros row.
  destruct (String.eqb (ticker row) key) eqn:E;
    destruct (String.eqb (ticker row) key') eqn:E'; simpl;
    rewrite ?E, ?E'; try reflexivity.
  apply String.eqb_eq in E, E'. congruence.
Qed.

(** A call either leaves every table alone or runs one UPDATE, and which of
    the two does not depend on the table. *)
Lemma fetch_and_store_zscore_cases (w : World num) (tk nav_symbol : string) :
  (forall table, fetch_and_store_zscore w tk nav_symbol table = table) \/
  (exists z, forall table,
      fetch_and_store_zscore w tk nav_symbol table =
      update_etf_static z (timestamp w) (timestamp w) (upper tk) table).
Proof.
  unfold fetch_and_store_zscore.
  destruct (fetched w tk _ _) as [price_data |]; [| now left].
  destruct (empty price_data); [now left |].
  destruct (fetched w nav_symbol _ _) as [nav_data |]; [| now left].
  destruct (empty nav_data); [now left |].
  destruct (calculate_z_score_3yr _ _ _) as [result |]; [| now left].
  destruct (commits w).
  - destruct (is_insufficient result); [right; now exists None |].
    destruct (lookup "z_score" result) as [z |]; [| now left].
    right. now exists (Some z).
  - left. intros table. destruct (is_insufficient result); [reflexivity |].
    destruct (lookup "z_score" result); reflexivity.
Qed.

(** X9. Whatever the call finds, it never adds, removes or reorders rows,
    never changes a ticker or a column other than the score and the two
    timestamps, and never changes a row whose ticker is not the upper-cased
    ticker it was called with. *)
Theorem store_touches_only_its_ticker (w : World num)
    (tk nav_symbol : string) (table : list (EtfRow num)) :
  Forall2 (row_kept_or_updated (upper tk)) table
          (fetch_and_store_zscore w tk nav_symbol table).
Proof.
  destruct (fetch_and_store_zscore_cases w tk nav_symbol) as [H | [z H]];
    rewrite H.
  - apply Forall2_same. unfold row_kept_or_updated. tauto.
  - apply update_etf_static_rows.
Qed.

(** X10. When the fetch for either symbol raises or returns no record, when
    the computation returns [None], or when the UPDATE does not commit, the
    table is left exactly as it was: a previously stored score stays. *)
Theorem no_data_leaves_table_unchanged (w : World num)
    (tk nav_symbol : string) (table : list (EtfRow num)) :
  let fetch := fun symbol =>
    fetched w symbol (minus_days (today w) (4 * 365)) (today w) in
  (exists e, fetch tk = Raised e) \/
  fetch tk = Returned [] \/
  (exists e, fetch nav_symbol = Raised e) \/
  fetch nav_symbol = Returned [] \/
  (exists price_data nav_data,
     fetch tk = Returned price_data /\
     fetch nav_symbol = Returned nav_data /\
     calculate_z_score_3yr price_data nav_data (today w) = None) \/
  commits w = false ->
  fetch_and_store_zscore w tk nav_symbol table = table.
Proof.
  intros fetch H. unfold fetch_and_store_zscore.
  change (fetched w tk (minus_days (today w) (4 * 365)) (today w))
    with (fetch tk).
  change (fetched w nav_symbol (minus_days (today w) (4 * 365)) (today w))
    with (fetch nav_symbol).
  destruct (fetch tk) as [price_data |] eqn:Ep; [| reflexivity].
  destruct price_data as [| p price_data]; [reflexivity |]. cbn [empty].
  destruct (fetch nav_symbol) as [nav_data |] eqn:En; [| reflexivity].
  destruct nav_data as [| n nav_data]; [reflexivity |]. cbn [empty].
  destruct (calculate_z_score_3yr _ _ _) as [result |] eqn:Ec;
    [| reflexivity].
  destruct H as [[e H] | [H | [[e H] | [H | [(pd & nd & H1 & H2 & H3) | H]]]]];
    try discriminate.
  - injection H1 as <-. injection H2 as <-. congruence.
  - rewrite H. destruct (is_insufficient result); [reflexivity |].
    destruct (lookup "z_score" result); reflexivity.
Qed.

(** X11. When both fetches return records, the selected window has fewer
    than 252 observations and the UPDATE commits, every row of the ticker
    ends with a NULL score, stamped with the time of the call: an earlier
    score is overwritten, not kept. *)
Theorem insufficient_data_stores_null (w : World num)
    (tk nav_symbol : string) (table : list (EtfRow num))
    (price_data nav_data : list (PricePoint num)) (win : Window num) :
  let start_date := minus_days (today w) (4 * 365) in
  fetched w tk start_date (today w) = Returned price_data ->
  fetched w nav_symbol start_date (today w) = Returned nav_data ->
  select_window (aligned price_data nav_data) (today w) = Some win ->
  (length (w_rows win) < 252)%nat ->
  commits w = true ->
  forall row,
    In row (fetch_and_store_zscore w tk nav_symbol table) ->
    ticker row = upper tk ->
    five_year_z_score row = None /\
    last_updated row = timestamp w /\ updated_at row = timestamp w.
Proof.
  intros start_date Hp Hn Hsel Hlt Hc row.
  unfold fetch_and_store_zscore. fold start_date. rewrite Hp, Hn, Hc.
  assert (Hne : aligned price_data nav_data <> [])
    by (intros E; rewrite E in Hsel; discriminate).
  destruct (aligned_nonempty_inputs _ _ Hne) as [Hp0 Hn0].
  destruct price_data; [congruence |]. destruct nav_data; [congruence |].
  cbn [empty].
  rewrite calculate_z_score_3yr_stages, Hsel. cbn [option_map].
  unfold score_window.
  destruct (Nat.ltb_spec (length (w_rows win)) 252); [| lia].
  cbn. unfold update_etf_static. intros Hin Hk.
  apply in_map_iff in Hin as (old & <- & _).
  destruct (String.eqb_spec (ticker old) (upper tk)); [simpl; auto |].
  contradiction.
Qed.

(** X12. When both fetches return records, the selected window has at least
    252 observations and the UPDATE commits, every row of the ticker ends
    with the 'z_score' of the computed result, stamped with the time of the
    call. *)
Theorem active_result_stores_z_score (w : World num)
    (tk nav_symbol : string) (table : list (EtfRow num))
    (price_data nav_data : list (PricePoint num)) (win : Window num) :
  let start_date := minus_days (today w) (4 * 365) in
  fetched w tk start_date (today w) = Returned price_data ->
  fetched w nav_symbol start_date (today w) = Returned nav_data ->
  select_window (aligned price_data nav_data) (today w) = Some win ->
  (252 <= length (w_rows win))%nat ->
  commits w = true ->
  exists result z,
    calculate_z_score_3yr price_data nav_data (today w) = Some result /\
    lookup "z_score" result = Some (VFloat z) /\
    forall row,
      In row (fetch_and_store_zscore w tk nav_symbol table) ->
      ticker row = upper tk ->
      five_year_z_score row = Some (VFloat z) /\
      last_updated row = timestamp w /\ updated_at row = timestamp w.
Proof.
  intros start_date Hp Hn Hsel Hge Hc.
  assert (Hne : aligned price_data nav_data <> [])
    by (intros E; rewrite E in Hsel; discriminate).
  destruct (aligned_nonempty_inputs _ _ Hne) as [Hp0 Hn0].
  pose proof (calculate_z_score_3yr_stages price_data nav_data (today w))
    as Hcalc.
  rewrite Hsel in Hcalc. cbn [option_map] in Hcalc.
  rewrite (score_window_accepted win Hge) in Hcalc.
  set (pds := map prem_disc (w_rows win)) in Hcalc.
  set (z := if feqb (population_stddev pds) (of_int 0) then of_int 0
            else fdiv (fsub (last pds (of_int 0)) (mean pds))
                      (population_stddev pds)) in Hcalc.
  eexists. exists z. split; [exact Hcalc |]. split; [reflexivity |].
  intros row. unfold fetch_and_store_zscore. fold start_date.
  rewrite Hp, Hn, Hc.
  destruct price_data; [congruence |]. destruct nav_data; [congruence |].
  cbn [empty]. rewrite Hcalc. cbn.
  unfold update_etf_static. intros Hin Hk.
  apply in_map_iff in Hin as (old & <- & _).
  destruct (String.eqb_spec (ticker old) (upper tk)); [simpl; auto |].
  contradiction.
Qed.

(** X13. Running the call a second time in the same surroundings changes
    nothing more: the write is idempotent. *)
Theorem store_is_idempotent (w : World num) (tk nav_symbol : string)
    (table : list (EtfRow num)) :
  fetch_and_store_zscore w tk nav_symbol
    (fetch_and_store_zscore w tk nav_symbol table) =
  fetch_and_store_zscore w tk nav_symbol table.
Proof.
  destruct (fetch_and_store_zscore_cases w tk nav_symbol) as [H | [z H]];
    rewrite !H; [reflexivity |].
  apply update_etf_static_idem.
Qed.

(** X14. Calls for two tickers that differ after upper-casing commute: the
    table they leave does not depend on which pair is processed first. *)
Theorem stores_of_different_tickers_commute (w1 w2 : World num)
    (tk1 nav1 tk2 nav2 : string) (table : list (EtfRow num)) :
  upper tk1 <> upper tk2 ->
  fetch_and_store_zscore w1 tk1 nav1
    (fetch_and_store_zscore w2 tk2 nav2 table) =
  fetch_and_store_zscore w2 tk2 nav2
    (fetch_and_store_zscore w1 tk1 nav1 table).
Proof.
  intros Hne.
  destruct (fetch_and_store_zscore_cases w1 tk1 nav1) as [H1 | [z1 H1]];
    destruct (fetch_and_store_zscore_cases w2 tk2 nav2) as [H2 | [z2 H2]];
    rewrite ?H1, ?H2; try reflexivity.
  now apply update_etf_static_comm.
Qed.

(** X15. The UPDATE never inserts: when the table has no row for the
    upper-cased ticker, the call leaves it as it was and the score is not
    stored anywhere. *)
Theorem unknown_ticker_is_not_inserted (w : World num)
    (tk nav_symbol : string) (table : list (EtfRow num)) :
  (forall row, In row table -> ticker row <> upper tk) ->
  fetch_and_store_zscore w tk nav_symbol table = table.
Proof.
  intros Hnone.
  destruct (fetch_and_store_zscore_cases w tk nav_symbol) as [H | [z H]];
    rewrite H; [reflexivity |].
  unfold update_etf_static. rewrite <- (map_id table) at 2.
  apply map_ext_in. intros row Hrow.
  destruct (String.eqb_spec (ticker row) (upper tk)) as [E | _];
    [now apply Hnone in E | reflexivity].
Qed.

(** X16. [main] changes nothing when the connection fails, and otherwise
    never changes a row whose ticker is not GAB. *)
Theorem main_touches_only_GAB (connects : bool) (world : string -> World num)
    (table : list (EtfRow num)) :
  (connects = false -> main connects world table = table) /\
  Forall2 (row_kept_or_updated "GAB") table (main connects world table).
Proof.
  split; [now intros -> |].
  unfold main. destruct connects.
  - cbn [tickers fold_left fst snd].
    destruct (fetch_and_store_zscore_cases (world "GAB"%string)
                "GAB" "XGABX") as [H | [z H]]; rewrite H.
    + apply Forall2_same. unfold row_kept_or_updated. tauto.
    + apply update_etf_static_rows.
  - apply Forall2_same. unfold row_kept_or_updated. tauto.
Qed.

End Storage.

(** ** Fetching the prices *)

Section Fetching.

Context {num : Type} {F : Float64 num}.

Lemma append_prices_all (data prices acc : list (pydict num)) :
  Forall2 (fun record price => standardize record = Returned price)
          data prices ->
  append_prices data acc = Returned (acc ++ prices).
Proof.
  intros H. revert acc.
  induction H as [| record price data prices E _ IH]; intros acc; simpl.
  - now rewrite app_nil_r.
  - rewrite E, IH, <- app_assoc. reflexivity.
Qed.

Lemma append_prices_first_failure (good rest prices acc : list (pydict num))
    (bad : pydict num) (e : exn) :
  Forall2 (fun record price => standardize record = Returned price)
          good prices ->
  standardize bad = Raised e ->
  append_prices (good ++ bad :: rest) acc = Raised e.
Proof.
  intros H Hbad. revert acc.
  induction H as [| record price data prices E _ IH]; intros acc; simpl.
  - now rewrite Hbad.
  - now rewrite E, IH.
Qed.

(** Records with a string under 'date' and something under 'close' are all
    standardized. *)
Lemma standardize_well_formed (data : list (pydict num)) :
  Forall (fun record =>
            (exists s, dict_index "date" record = Some (JString s)) /\
            dict_index "close" record <> None) data ->
  exists prices,
    Forall2 (fun record price => standardize record = Returned price)
            data prices.
Proof.
  induction 1 as [| record data [[s Hs] Hc] _ [prices IH]].
  - exists []. constructor.
  - destruct (dict_index "close" record) as [c |] eqn:Ec; [| congruence].
    eexists (_ :: prices). constructor; [| exact IH].
    unfold standardize. rewrite Hs, Ec. reflexivity.
Qed.

(** X17. When the request succeeds and every record of the answer has a
    string under 'date' and a 'close' key, the function returns one dict per
    record, in the order of the answer, holding exactly the six keys date,
    close, open, high, low and volume: the date cut to its first ten
    characters, the close as it came, and [None] for an optional key the
    record lacks. *)
Theorem get_tiingo_prices_standardizes (requests_get : Request -> Response num)
    (api_key ticker start_date end_date : string)
    (data : list (pydict num)) :
  requests_get
    (mkRequest
       ("https://api.tiingo.com/tiingo/daily/" ++ ticker ++ "/prices")
       [ ("startDate", start_date); ("endDate", end_date);
         ("token", api_key) ])%string = Body data ->
  Forall (fun record =>
            (exists s, dict_index "date" record = Some (JString s)) /\
            dict_index "close" record <> None) data ->
  exists prices,
    get_tiingo_prices requests_get api_key ticker start_date end_date
    = Returned prices /\
    Forall2
      (fun record price =>
         exists s c,
           dict_index "date" record = Some (JString s) /\
           dict_index "close" record = Some c /\
           price = [ ("date", JString (substring 0 10 s));
                     ("close", c);
                     ("open", dict_get "open" record);
                     ("high", dict_get "high" record);
                     ("low", dict_get "low" record);
                     ("volume", dict_get "volume" record) ]%string)
      data prices.
Proof.
  intros Hresp Hwf.
  destruct (standardize_well_formed Hwf) as [prices Hall].
  exists prices. split.
  - unfold get_tiingo_prices. rewrite Hresp.
    now rewrite (append_prices_all [] Hall).
  - clear Hresp. induction Hall as [| record price data prices E _ IH];
      constructor.
    + apply Forall_inv in Hwf as [[s Hs] Hc].
      destruct (dict_index "close" record) as [c |] eqn:Ec; [| congruence].
      exists s, c. unfold standardize in E. rewrite Hs, Ec in E.
      simpl in E. injection E as <-. auto.
    + apply IH. now apply Forall_inv_tail in Hwf.
Qed.

(** X18. A record that lacks 'date', or lacks 'close', makes the call raise
    [KeyError] for that key, whatever was converted before it: the error is
    not turned into an empty list, and no partial list is returned. *)
Theorem missing_key_is_raised (requests_get : Request -> Response num)
    (api_key ticker start_date end_date : string)
    (good rest : list (pydict num)) (bad : pydict num) :
  requests_get
    (mkRequest
       ("https://api.tiingo.com/tiingo/daily/" ++ ticker ++ "/prices")
       [ ("startDate", start_date); ("endDate", end_date);
         ("token", api_key) ])%string = Body (good ++ bad :: rest) ->
  Forall (fun record =>
            (exists s, dict_index "date" record = Some (JString s)) /\
            dict_index "close" record <> None) good ->
  (dict_index "date" bad = None ->
   get_tiingo_prices requests_get api_key ticker start_date end_date
   = Raised (KeyError "date")) /\
  ((exists s, dict_index "date" bad = Some (JString s)) ->
   dict_index "close" bad = None ->
   get_tiingo_prices requests_get api_key ticker start_date end_date
   = Raised (KeyError "close")).
Proof.
  intros Hresp Hwf.
  destruct (standardize_well_formed Hwf) as [prices Hall].
  unfold get_tiingo_prices. rewrite Hresp. split.
  - intros Hd. eapply append_prices_first_failure; [exact Hall |].
    unfold standardize. now rewrite Hd.
  - intros [s Hs] Hc. eapply append_prices_first_failure; [exact Hall |].
    unfold standardize. now rewrite Hs, Hc.
Qed.

Lemma substring_strftime_ymd (d : Date) (time : string) :
  substring 0 10 (strftime_ymd d ++ time) = strftime_ymd d.
Proof.
  unfold strftime_ymd, pad4, pad2. simpl.
  destruct time; reflexivity.
Qed.

(** X19. On an answer in Tiingo's format, where each 'date' is the
    ten-character date followed by a time of day, the function returns the
    bare 'YYYY-MM-DD' dates with the closes, drops the keys it does not
    name, and fills the optional keys the records lack with [None]. *)
Theorem tiingo_timestamps_cut_to_dates (requests_get : Request -> Response num)
    (api_key ticker start_date end_date : string)
    (items : list (Date * string * num)) :
  requests_get
    (mkRequest
       ("https://api.tiingo.com/tiingo/daily/" ++ ticker ++ "/prices")
       [ ("startDate", start_date); ("endDate", end_date);
         ("token", api_key) ])%string
  = Body (map (fun i => tiingo_record (fst (fst i)) (snd (fst i)) (snd i))
              items) ->
  get_tiingo_prices requests_get api_key ticker start_date end_date
  = Returned
      (map (fun i => [ ("date", JString (strftime_ymd (fst (fst i))));
                       ("close", JNumber (snd i));
                       ("open", JNull); ("high", JNull);
                       ("low", JNull); ("volume", JNull) ]%string)
           items).
Proof.
  intros Hresp. unfold get_tiingo_prices. rewrite Hresp.
  rewrite (@append_prices_all _
             (map (fun i => [ ("date", JString (strftime_ymd (fst (fst i))));
                              ("close", JNumber (snd i));
                              ("open", JNull); ("high", JNull);
                              ("low", JNull); ("volume", JNull) ]%string)
                  items) []); [reflexivity |].
  clear Hresp.
  induction items as [| [[d time] c] items IH]; simpl; [constructor |].
  constructor; [| exact IH].
  assert (Hd : dict_index "date" (tiingo_record d time c)
               = Some (JString (strftime_ymd d ++ time))) by reflexivity.
  assert (Hc : dict_index "close" (tiingo_record d time c)
               = Some (JNumber c)) by reflexivity.
  unfold standardize. rewrite Hd. cbn [first_ten].
  rewrite substring_strftime_ymd, Hc. reflexivity.
Qed.

End Fetching.

(** ** Start-up and the fetch range *)

(** X20. Importing the module succeeds exactly when the three environment
    variables are set and not empty, and then holds their values. *)
Theorem load_module_succeeds_iff (getenv : string -> option string)
    (c : Config) :
  load_module getenv = Returned c <->
  getenv "TIINGO_API_KEY"%string = Some (TIINGO_API_KEY c) /\
  getenv "SUPABASE_URL"%string = Some (SUPABASE_URL c) /\
  getenv "SUPABASE_SERVICE_ROLE_KEY"%string = Some (SUPABASE_SERVICE_KEY c) /\
  TIINGO_API_KEY c <> EmptyString /\
  SUPABASE_URL c <> EmptyString /\
  SUPABASE_SERVICE_KEY c <> EmptyString.
Proof.
  unfold load_module, falsy.
  destruct (getenv "TIINGO_API_KEY"%string) as [k |];
    destruct (getenv "SUPABASE_URL"%string) as [u |];
    destruct (getenv "SUPABASE_SERVICE_ROLE_KEY"%string) as [s |];
    repeat match goal with
      | |- context [String.eqb ?x EmptyString] =>
          destruct (String.eqb_spec x EmptyString)
      end;
    cbn [orb or_empty];
    (split;
     [ intros H; try discriminate H; injection H as <-; cbn; tauto
     | intros (H1 & H2 & H3 & Hk & Hu & Hs);
       inversion H1; inversion H2; inversion H3; subst;
       try congruence; destruct c; reflexivity ]).
Qed.

Lemma in_dates_of_years (first : Z) (years : nat) (d : Date) :
  valid_date d = true ->
  (first <= year d < first + Z.of_nat years)%Z ->
  In d (dates_of_years first years).
Proof.
  destruct d as [y m dd]. unfold valid_date. simpl.
  rewrite !andb_true_iff, !Z.leb_le. intros [[[Hm1 Hm2] Hd1] Hd2] Hy.
  unfold dates_of_years. apply in_flat_map.
  exists (Z.to_nat (y - first)). split; [apply in_seq; lia |].
  replace (first + Z.of_nat (Z.to_nat (y - first)))%Z with y by lia.
  unfold dates_of_year. apply in_flat_map.
  exists (Z.to_nat m). split; [apply in_seq; lia |].
  rewrite Z2Nat.id by lia.
  apply in_map_iff. exists (Z.to_nat dd). split.
  - now rewrite Z2Nat.id by lia.
  - apply in_seq. lia.
Qed.

(** X21. The range the script fetches reaches back far enough: for every
    valid day of the years 1970 to 2199, 4 * 365 days before that day is not
    later than the start of a three-year window that ends on it. *)
Theorem fetch_range_covers_three_years (d : Date) :
  valid_date d = true ->
  (1970 <= year d < 2200)%Z ->
  date_leb (minus_days d (4 * 365)) (sub_DateOffset_years d 3) = true.
Proof.
  intros Hv Hy.
  assert (Hall : forallb
                   (fun d => date_leb (minus_days d (4 * 365))
                                      (sub_DateOffset_years d 3))
                   (dates_of_years 1970 230) = true)
    by (vm_compute; reflexivity).
  rewrite forallb_forall in Hall. apply Hall.
  apply in_dates_of_years; [exact Hv |]. simpl. lia.
Qed.

(** ** The properties above at concrete inputs *)

Lemma result_insensitive_to_input_order_witness :
  NoDup (map pp_date unordered_prices) /\
  NoDup (map pp_date ordered_navs) /\
  Permutation unordered_prices (rev unordered_prices) /\
  Permutation ordered_navs (rev ordered_navs) /\
  calculate_z_score_3yr (rev unordered_prices) (rev ordered_navs) as_of
  = calculate_z_score_3yr unordered_prices ordered_navs as_of.
Proof.
  assert (H1 : NoDup (map pp_date unordered_prices)).
  { simpl. repeat constructor; simpl; intuition discriminate. }
  assert (H2 : NoDup (map pp_date ordered_navs)).
  { simpl. repeat constructor; simpl; intuition discriminate. }
  pose proof (Permutation_rev unordered_prices) as H3.
  pose proof (Permutation_rev ordered_navs) as H4.
  repeat (split; [assumption |]).
  exact (result_insensitive_to_input_order as_of H1 H2 H3 H4).
Defined.

Lemma returns_None_iff_witness :
  (forall x y,
     In x leap_series -> In y leap_series -> pp_date x = pp_date y ->
     fgtb (pp_close x) (of_int 0) = true ->
     fgtb (pp_close y) (of_int 0) = true ->
     date_leb (pp_date x) (mkDate 2020 1 1) = false) /\
  calculate_z_score_3yr leap_series leap_series (mkDate 2020 1 1) = None.
Proof.
  assert (H : forall x y,
             In x leap_series -> In y leap_series -> pp_date x = pp_date y ->
             fgtb (pp_close x) (of_int 0) = true ->
             fgtb (pp_close y) (of_int 0) = true ->
             date_leb (pp_date x) (mkDate 2020 1 1) = false).
  { intros x y [<- | [<- | []]] _ _ _ _; reflexivity. }
  split; [exact H |].
  exact (proj2 (returns_None_iff leap_series leap_series (mkDate 2020 1 1)) H).
Defined.

Lemma data_points_bounds_witness :
  calculate_z_score_3yr unordered_prices ordered_navs as_of
  = Some (insufficient_result 2) /\
  NoDup (map pp_date ordered_navs) /\
  NoDup (map pp_date unordered_prices) /\
  exists k : nat,
    lookup "data_points" (insufficient_result (num:=float) 2)
    = Some (VInt (Z.of_nat k)) /\
    (1 <= k)%nat /\
    (k <= length unordered_prices)%nat /\ (k <= length ordered_navs)%nat.
Proof.
  assert (H1 : calculate_z_score_3yr unordered_prices ordered_navs as_of
               = Some (insufficient_result 2)) by (vm_compute; reflexivity).
  assert (H2 : NoDup (map pp_date ordered_navs)).
  { simpl. repeat constructor; simpl; intuition discriminate. }
  assert (H3 : NoDup (map pp_date unordered_prices)).
  { simpl. repeat constructor; simpl; intuition discriminate. }
  split; [exact H1 |]. split; [exact H2 |]. split; [exact H3 |].
  destruct (data_points_bounds _ _ _ H1) as (k & Hk & Hone & Hp & Hn).
  exists k. repeat split; auto.
Defined.

Lemma short_series_never_scored_witness :
  NoDup (map pp_date unordered_prices) /\
  NoDup (map pp_date ordered_navs) /\
  ((length unordered_prices < 252)%nat \/ (length ordered_navs < 252)%nat) /\
  calculate_z_score_3yr unordered_prices ordered_navs as_of
  = Some (insufficient_result 2) /\
  lookup "z_score" (insufficient_result (num:=float) 2) = None.
Proof.
  assert (H1 : NoDup (map pp_date unordered_prices)).
  { simpl. repeat constructor; simpl; intuition discriminate. }
  assert (H2 : NoDup (map pp_date ordered_navs)).
  { simpl. repeat constructor; simpl; intuition discriminate. }
  assert (H3 : (length unordered_prices < 252)%nat
               \/ (length ordered_navs < 252)%nat) by (left; simpl; lia).
  assert (H4 : calculate_z_score_3yr unordered_prices ordered_navs as_of
               = Some (insufficient_result 2)) by (vm_compute; reflexivity).
  repeat (split; [assumption |]).
  exact (proj2 (short_series_never_scored unordered_prices ordered_navs
                  as_of H1 H2 H3 H4)).
Defined.

Lemma later_as_of_date_same_result_witness :
  (forall x, In x unordered_prices -> date_leb (pp_date x) as_of = true) /\
  date_leb as_of leap_day = true /\
  calculate_z_score_3yr unordered_prices ordered_navs leap_day
  = calculate_z_score_3yr unordered_prices ordered_navs as_of.
Proof.
  assert (H1 : forall x, In x unordered_prices ->
                         date_leb (pp_date x) as_of = true).
  { intros x [<- | [<- | [<- | []]]]; reflexivity. }
  assert (H2 : date_leb as_of leap_day = true) by reflexivity.
  split; [exact H1 |]. split; [exact H2 |].
  exact (later_as_of_date_same_result unordered_prices ordered_navs
           as_of leap_day H1 H2).
Defined.

Lemma no_look_ahead_witness :
  NoDup (map pp_date unordered_prices) /\
  NoDup (map pp_date ordered_navs) /\
  length (filter (fun x => date_leb (pp_date x) (mkDate 2023 2 15))
                 unordered_prices) = 2%nat /\
  calculate_z_score_3yr
    (filter (fun x => date_leb (pp_date x) (mkDate 2023 2 15))
            unordered_prices)
    (filter (fun x => date_leb (pp_date x) (mkDate 2023 2 15)) ordered_navs)
    (mkDate 2023 2 15)
  = calculate_z_score_3yr unordered_prices ordered_navs (mkDate 2023 2 15).
Proof.
  assert (H1 : NoDup (map pp_date unordered_prices)).
  { simpl. repeat constructor; simpl; intuition discriminate. }
  assert (H2 : NoDup (map pp_date ordered_navs)).
  { simpl. repeat constructor; simpl; intuition discriminate. }
  split; [exact H1 |]. split; [exact H2 |]. split; [reflexivity |].
  exact (no_look_ahead unordered_prices ordered_navs (mkDate 2023 2 15)
           H1 H2).
Defined.

Lemma nonpositive_closes_are_ignored_witness :
  NoDup (map pp_date unordered_prices) /\
  NoDup (map pp_date ordered_navs) /\
  length (filter (fun x => fgtb (pp_close x) (of_int 0)) unordered_prices)
  = 2%nat /\
  calculate_z_score_3yr
    (filter (fun x => fgtb (pp_close x) (of_int 0)) unordered_prices)
    (filter (fun x => fgtb (pp_close x) (of_int 0)) ordered_navs)
    as_of
  = calculate_z_score_3yr unordered_prices ordered_navs as_of.
Proof.
  assert (H1 : NoDup (map pp_date unordered_prices)).
  { simpl. repeat constructor; simpl; intuition discriminate. }
  assert (H2 : NoDup (map pp_date ordered_navs)).
  { simpl. repeat constructor; simpl; intuition discriminate. }
  split; [exact H1 |]. split; [exact H2 |].
  split; [vm_compute; reflexivity |].
  exact (nonpositive_closes_are_ignored unordered_prices ordered_navs as_of
           H1 H2).
Defined.

Lemma records_before_window_are_ignored_witness :
  NoDup (map pp_date old_prices) /\
  NoDup (map pp_date old_navs) /\
  select_window (aligned old_prices old_navs) as_of = Some recent_window /\
  length (filter (fun x => date_leb (w_start recent_window) (pp_date x))
                 old_prices) = 3%nat /\
  length old_prices = 4%nat /\
  calculate_z_score_3yr
    (filter (fun x => date_leb (w_start recent_window) (pp_date x))
            old_prices)
    (filter (fun x => date_leb (w_start recent_window) (pp_date x)) old_navs)
    as_of
  = calculate_z_score_3yr old_prices old_navs as_of.
Proof.
  assert (H1 : NoDup (map pp_date old_prices)).
  { simpl. repeat constructor; simpl; intuition discriminate. }
  assert (H2 : NoDup (map pp_date old_navs)).
  { simpl. repeat constructor; simpl; intuition discriminate. }
  assert (H3 : select_window (aligned old_prices old_navs) as_of
               = Some recent_window) by (vm_compute; reflexivity).
  split; [exact H1 |]. split; [exact H2 |]. split; [exact H3 |].
  split; [reflexivity |]. split; [reflexivity |].
  exact (records_before_window_are_ignored old_prices old_navs as_of
           H1 H2 H3).
Defined.

Lemma no_data_leaves_table_unchanged_witness :
  fetched (world_of flat_prices []) "XGABX"
          (minus_days (today (world_of flat_prices [])) (4 * 365))
          (today (world_of flat_prices [])) = Returned [] /\
  fetch_and_store_zscore (world_of flat_prices []) "GAB" "XGABX" small_table
  = small_table.
Proof.
  assert (H : fetched (world_of flat_prices []) "XGABX"
                (minus_days (today (world_of flat_prices [])) (4 * 365))
                (today (world_of flat_prices [])) = Returned [])
    by reflexivity.
  split; [exact H |].
  apply no_data_leaves_table_unchanged.
  right. right. right. left. exact H.
Defined.

Lemma insufficient_data_stores_null_witness :
  fetched short_world "gab" (minus_days (today short_world) (4 * 365))
          (today short_world) = Returned flat_prices /\
  fetched short_world "XGABX" (minus_days (today short_world) (4 * 365))
          (today short_world) = Returned short_navs /\
  select_window (aligned flat_prices short_navs) (today short_world)
  = Some short_window /\
  (length (w_rows short_window) < 252)%nat /\
  commits short_world = true /\
  forall row,
    In row (fetch_and_store_zscore short_world "gab" "XGABX" small_table) ->
    ticker row = upper "gab" ->
    five_year_z_score row = None /\
    last_updated row = timestamp short_world /\
    updated_at row = timestamp short_world.
Proof.
  assert (H1 : fetched short_world "gab"
                 (minus_days (today short_world) (4 * 365))
                 (today short_world) = Returned flat_prices) by reflexivity.
  assert (H2 : fetched short_world "XGABX"
                 (minus_days (today short_world) (4 * 365))
                 (today short_world) = Returned short_navs) by reflexivity.
  assert (H3 : select_window (aligned flat_prices short_navs)
                 (today short_world) = Some short_window)
    by (vm_compute; reflexivity).
  assert (H4 : (length (w_rows short_window) < 252)%nat)
    by (vm_compute; lia).
  assert (H5 : commits short_world = true) by reflexivity.
  exact (conj H1 (conj H2 (conj H3 (conj H4 (conj H5
           (insufficient_data_stores_null short_world "gab" "XGABX"
              small_table H1 H2 H3 H4 H5)))))).
Defined.

Lemma active_result_stores_z_score_witness :
  fetched two_level_world "GAB"
          (minus_days (today two_level_world) (4 * 365))
          (today two_level_world) = Returned two_level_prices /\
  fetched two_level_world "XGABX"
          (minus_days (today two_level_world) (4 * 365))
          (today two_level_world) = Returned flat_navs /\
  select_window (aligned two_level_prices flat_navs) (today two_level_world)
  = Some two_level_window /\
  (252 <= length (w_rows two_level_window))%nat /\
  commits two_level_world = true /\
  exists result z,
    calculate_z_score_3yr two_level_prices flat_navs (today two_level_world)
    = Some result /\
    lookup "z_score" result = Some (VFloat z) /\
    forall row,
      In row (fetch_and_store_zscore two_level_world "GAB" "XGABX"
                                     small_table) ->
      ticker row = upper "GAB" ->
      five_year_z_score row = Some (VFloat z) /\
      last_updated row = timestamp two_level_world /\
      updated_at row = timestamp two_level_world.
Proof.
  assert (H1 : fetched two_level_world "GAB"
                 (minus_days (today two_level_world) (4 * 365))
                 (today two_level_world) = Returned two_level_prices)
    by reflexivity.
  assert (H2 : fetched two_level_world "XGABX"
                 (minus_days (today two_level_world) (4 * 365))
                 (today two_level_world) = Returned flat_navs)
    by reflexivity.
  assert (H3 : select_window (aligned two_level_prices flat_navs)
                 (today two_level_world) = Some two_level_window)
    by (vm_compute; reflexivity).
  assert (H4 : (252 <= length (w_rows two_level_window))%nat)
    by (vm_compute; lia).
  assert (H5 : commits two_level_world = true) by reflexivity.
  exact (conj H1 (conj H2 (conj H3 (conj H4 (conj H5
           (active_result_stores_z_score two_level_world "GAB" "XGABX"
              small_table H1 H2 H3 H4 H5)))))).
Defined.

Lemma stores_of_different_tickers_commute_witness :
  upper "gab" <> upper "pdi" /\
  fetch_and_store_zscore flat_world "gab" "XGABX"
    (fetch_and_store_zscore short_world "pdi" "XGABX" small_table)
  = fetch_and_store_zscore short_world "pdi" "XGABX"
      (fetch_and_store_zscore flat_world "gab" "XGABX" small_table).
Proof.
  assert (H : upper "gab" <> upper "pdi") by (vm_compute; discriminate).
  split; [exact H |].
  exact (stores_of_different_tickers_commute flat_world short_world
           "gab" "XGABX" "pdi" "XGABX" small_table H).
Defined.

Lemma unknown_ticker_is_not_inserted_witness :
  (forall row, In row [pdi_row] -> ticker row <> upper "GAB") /\
  fetch_and_store_zscore flat_world "GAB" "XGABX" [pdi_row] = [pdi_row].
Proof.
  assert (H : forall row, In row [pdi_row] -> ticker row <> upper "GAB").
  { intros row [<- | []]. vm_compute. discriminate. }
  split; [exact H |].
  exact (unknown_ticker_is_not_inserted flat_world "GAB" "XGABX"
           [pdi_row] H).
Defined.

Lemma main_touches_only_GAB_witness :
  false = false /\
  main false (fun _ => flat_world) small_table = small_table.
Proof.
  split; [reflexivity |].
  exact (proj1 (main_touches_only_GAB false (fun _ => flat_world)
                  small_table) eq_refl).
Defined.

Lemma get_tiingo_prices_standardizes_witness :
  network (Body tiingo_body)
    (mkRequest
       ("https://api.tiingo.com/tiingo/daily/" ++ "GAB" ++ "/prices")
       [ ("startDate", "2020-01-02"); ("endDate", "2024-01-01");
         ("token", "k") ])%string = Body tiingo_body /\
  Forall (fun record =>
            (exists s, dict_index "date" record = Some (JString s)) /\
            dict_index "close" record <> None) tiingo_body /\
  exists prices,
    get_tiingo_prices (network (Body tiingo_body)) "k" "GAB" "2020-01-02"
                      "2024-01-01" = Returned prices /\
    length prices = length tiingo_body.
Proof.
  assert (H1 : network (Body tiingo_body)
    (mkRequest
       ("https://api.tiingo.com/tiingo/daily/" ++ "GAB" ++ "/prices")
       [ ("startDate", "2020-01-02"); ("endDate", "2024-01-01");
         ("token", "k") ])%string = Body tiingo_body) by reflexivity.
  assert (H2 : Forall (fun record =>
            (exists s, dict_index "date" record = Some (JString s)) /\
            dict_index "close" record <> None) tiingo_body).
  { repeat constructor; try (eexists; reflexivity); discriminate. }
  split; [exact H1 |]. split; [exact H2 |].
  destruct (get_tiingo_prices_standardizes (network (Body tiingo_body))
              "k" "GAB" "2020-01-02" "2024-01-01" H1 H2)
    as (prices & Hp & Hall).
  exists prices. split; [exact Hp |].
  symmetry. exact (Forall2_length Hall).
Defined.

Lemma missing_key_is_raised_witness :
  network (Body (tiingo_body ++ closeless_record :: tiingo_body))
    (mkRequest
       ("https://api.tiingo.com/tiingo/daily/" ++ "GAB" ++ "/prices")
       [ ("startDate", "2020-01-02"); ("endDate", "2024-01-01");
         ("token", "k") ])%string
  = Body (tiingo_body ++ closeless_record :: tiingo_body) /\
  Forall (fun record =>
            (exists s, dict_index "date" record = Some (JString s)) /\
            dict_index "close" record <> None) tiingo_body /\
  (exists s, dict_index "date" closeless_record = Some (JString s)) /\
  dict_index "close" closeless_record = None /\
  get_tiingo_prices
    (network (Body (tiingo_body ++ closeless_record :: tiingo_body)))
    "k" "GAB" "2020-01-02" "2024-01-01" = Raised (KeyError "close").
Proof.
  assert (H1 : network (Body (tiingo_body ++ closeless_record :: tiingo_body))
    (mkRequest
       ("https://api.tiingo.com/tiingo/daily/" ++ "GAB" ++ "/prices")
       [ ("startDate", "2020-01-02"); ("endDate", "2024-01-01");
         ("token", "k") ])%string
    = Body (tiingo_body ++ closeless_record :: tiingo_body)) by reflexivity.
  assert (H2 : Forall (fun record =>
            (exists s, dict_index "date" record = Some (JString s)) /\
            dict_index "close" record <> None) tiingo_body).
  { repeat constructor; try (eexists; reflexivity); discriminate. }
  assert (H3 : exists s, dict_index "date" closeless_record
                         = Some (JString s)) by (eexists; reflexivity).
  assert (H4 : dict_index "close" closeless_record = None) by reflexivity.
  repeat (split; [assumption |]).
  exact (proj2 (missing_key_is_raised
                  (network (Body (tiingo_body ++ closeless_record
                                              :: tiingo_body)))
                  "k" "GAB" "2020-01-02" "2024-01-01"
                  tiingo_body closeless_record H1 H2) H3 H4).
Defined.

Lemma tiingo_timestamps_cut_to_dates_witness :
  network (Body tiingo_body)
    (mkRequest
       ("https://api.tiingo.com/tiingo/daily/" ++ "GAB" ++ "/prices")
       [ ("startDate", "2020-01-02"); ("endDate", "2024-01-01");
         ("token", "k") ])%string
  = Body (map (fun i => tiingo_record (fst (fst i)) (snd (fst i)) (snd i))
              [ (mkDate 2024 1 2, "T00:00:00.000Z", 5.5%float);
                (mkDate 2024 1 3, "T00:00:00.000Z", 5.75%float) ]%string) /\
  get_tiingo_prices (network (Body tiingo_body)) "k" "GAB" "2020-01-02"
                    "2024-01-01"
  = Returned
      [ [ ("date", JString "2024-01-02"); ("close", JNumber 5.5%float);
          ("open", JNull); ("high", JNull); ("low", JNull);
          ("volume", JNull) ];
        [ ("date", JString "2024-01-03"); ("close", JNumber 5.75%float);
          ("open", JNull); ("high", JNull); ("low", JNull);
          ("volume", JNull) ] ]%string.
Proof.
  assert (H : network (Body tiingo_body)
    (mkRequest
       ("https://api.tiingo.com/tiingo/daily/" ++ "GAB" ++ "/prices")
       [ ("startDate", "2020-01-02"); ("endDate", "2024-01-01");
         ("token", "k") ])%string
    = Body (map (fun i => tiingo_record (fst (fst i)) (snd (fst i)) (snd i))
              [ (mkDate 2024 1 2, "T00:00:00.000Z", 5.5%float);
                (mkDate 2024 1 3, "T00:00:00.000Z", 5.75%float) ]%string))
    by reflexivity.
  split; [exact H |].
  exact (tiingo_timestamps_cut_to_dates (network (Body tiingo_body))
           "k" "GAB" "2020-01-02" "2024-01-01" _ H).
Defined.

Lemma load_module_succeeds_iff_witness :
  load_module full_env
  = Returned (mkConfig "k" "https://x.supabase.co" "s") /\
  load_module (fun _ => None)
  <> Returned (mkConfig "k" "https://x.supabase.co" "s").
Proof.
  split.
  - apply (proj2 (load_module_succeeds_iff full_env
                    (mkConfig "k" "https://x.supabase.co" "s"))).
    repeat split; try reflexivity; discriminate.
  - intros H.
    apply (proj1 (load_module_succeeds_iff (fun _ => None) _)) in H.
    destruct H as [H _]. discriminate H.
Defined.

Lemma fetch_range_covers_three_years_witness :
  valid_date leap_day = true /\
  (1970 <= year leap_day < 2200)%Z /\
  date_leb (minus_days leap_day (4 * 365))
           (sub_DateOffset_years leap_day 3) = true.
Proof.
  assert (H1 : valid_date leap_day = true) by reflexivity.
  assert (H2 : (1970 <= year leap_day < 2200)%Z) by (simpl; lia).
  split; [exact H1 |]. split; [exact H2 |].
  exact (fetch_range_covers_three_years leap_day H1 H2).
Defined.
